(** * binance_testnet_bot.py: the facade [BasicBot] and the interactive shell

    A shallow embedding of [src/binance_testnet_bot.py].  The program is a
    thin wrapper: every facade method makes one call into the python-binance
    client and turns what comes back (a payload or an exception) into a
    return value; [main] reads a menu choice and typed fields from standard
    input and dispatches.

    What is modelled, and how:
    - Python values that cross the facade are [pyval] (JSON-shaped data);
    - exceptions are [exn], with the part of the class hierarchy the
      [except] clauses of the source discriminate on;
    - the client library (the "adapter") is an oracle [Adapter]: the answer
      to a call may depend on every call made before it;
    - effects (standard input, printing, logging, adapter calls) are threaded
      through a state-and-exception monad [M] over a [world];
    - an f-string or [json.dumps] over a value can raise: CPython refuses to
      convert an [int] of more than 4300 digits to text, and gives up on a
      container nested deeper than its stack allows ([str_raises],
      [dumps_raises]);
    - the two [while True] loops take fuel; running out of it is the outcome
      [OutOfFuel], which is not a result of the program. *)

From Stdlib Require Import List String Ascii ZArith Bool Lia PeanoNat.
From Stdlib Require Import PrimFloat Uint63 DecimalString.
From Stdlib Require DecimalFacts DecimalN.
Import ListNotations.
Open Scope string_scope.
Open Scope list_scope.

Set Warnings "-register-all".

(** ** Python values *)

Inductive pyval : Type :=
| PNone
| PBool (b : bool)
| PInt (n : Z)
| PFloat (x : float)
| PStr (s : string)
| PList (l : list pyval)
| PDict (d : list (string * pyval)).

(** [d.get(key)] on the items of a dict: the first binding of [key]. *)
Fixpoint assoc (key : string) (d : list (string * pyval)) : option pyval :=
  match d with
  | [] => None
  | (k, v) :: rest => if String.eqb k key then Some v else assoc key rest
  end.

(** [type(v).__name__] *)
Definition class_name (v : pyval) : string :=
  match v with
  | PNone => "NoneType"
  | PBool _ => "bool"
  | PInt _ => "int"
  | PFloat _ => "float"
  | PStr _ => "str"
  | PList _ => "list"
  | PDict _ => "dict"
  end.

(** ** Exceptions

    The classes the source names in an [except] clause, the built-in ones its
    own calls raise, [OtherException] for any other subclass of [Exception],
    and the two [BaseException]s that are not [Exception]s.  [text] is what
    [str(e)] returns. *)

Inductive exn : Type :=
| BinanceAPIException (code : option Z) (text : string)
| BinanceOrderException (text : string)
| RequestException (text : string)
| ValueError (text : string)
| EOFError (text : string)
| AttributeError (text : string)
| RecursionError (text : string)
| OtherException (text : string)
| KeyboardInterrupt
| SystemExit (code : Z).

Definition str_exn (e : exn) : string :=
  match e with
  | BinanceAPIException _ t | BinanceOrderException t | RequestException t
  | ValueError t | EOFError t | AttributeError t | RecursionError t
  | OtherException t => t
  | KeyboardInterrupt => EmptyString
  | SystemExit c => NilZero.string_of_int (Z.to_int c)
  end.

(** [isinstance(e, C)] for the classes that occur in [except] clauses. *)
Definition is_Exception (e : exn) : bool :=
  match e with
  | KeyboardInterrupt | SystemExit _ => false
  | _ => true
  end.

Definition is_BinanceAPIException (e : exn) : bool :=
  match e with BinanceAPIException _ _ => true | _ => false end.

Definition is_BinanceOrderException (e : exn) : bool :=
  match e with BinanceOrderException _ => true | _ => false end.

Definition is_RequestException (e : exn) : bool :=
  match e with RequestException _ => true | _ => false end.

Definition is_ValueError (e : exn) : bool :=
  match e with ValueError _ => true | _ => false end.

(** [e.code == c] *)
Definition code_is (e : exn) (c : Z) : bool :=
  match e with
  | BinanceAPIException (Some k) _ => Z.eqb k c
  | _ => false
  end.

(** [AttributeError] for a method the value does not have. *)
Definition no_attribute (v : pyval) (name : string) : exn :=
  AttributeError
    ("'" ++ class_name v ++ "' object has no attribute '" ++ name ++ "'")%string.

(** ** Rendering values as text

    [str(v)], [repr(v)] and [json.dumps(v)] do not return for every value.
    CPython refuses to convert an [int] of more than 4300 digits to text
    (the default of [sys.set_int_max_str_digits] since 3.11, which the source
    leaves alone) and raises [ValueError]; and on a container nested too
    deep for the stack of the interpreter it raises [RecursionError]. *)

Definition max_str_digits : nat := 4300.

(** The decimal digits of [n], sign apart, are no more than the limit. *)
Definition int_formats (n : Z) : bool :=
  (Decimal.nb_digits (N.to_uint (Z.abs_N n)) <=? max_str_digits)%nat.

(** No [int] inside [v] is past the limit. *)
Fixpoint formats (v : pyval) : bool :=
  match v with
  | PInt n => int_formats n
  | PList l =>
      (fix all (l : list pyval) : bool :=
         match l with
         | [] => true
         | x :: rest => formats x && all rest
         end) l
  | PDict d =>
      (fix all (d : list (string * pyval)) : bool :=
         match d with
         | [] => true
         | (_, x) :: rest => formats x && all rest
         end) d
  | _ => true
  end.

Definition scalar (v : pyval) : bool :=
  match v with
  | PList _ | PDict _ => false
  | _ => true
  end.

(** A value that is no container, or a container of such values. *)
Definition flat (v : pyval) : bool :=
  match v with
  | PList l => forallb scalar l
  | PDict d => forallb (fun kv => scalar (snd kv)) d
  | _ => true
  end.

(** What the conversion of an [int] past the limit raises. *)
Definition format_error : exn :=
  ValueError
    "Exceeds the limit (4300 digits) for integer string conversion; use sys.set_int_max_str_digits() to increase the limit".

(** The two ways in which rendering a value fails. *)
Inductive render_failure : Type :=
| DigitLimit
| TooDeep (text : string).

Definition exn_of_failure (f : render_failure) : exn :=
  match f with
  | DigitLimit => format_error
  | TooDeep t => RecursionError t
  end.

(** The exceptions that rendering raises. *)
Definition is_render_error (e : exn) : bool :=
  match e with
  | ValueError _ | RecursionError _ => true
  | _ => false
  end.

(** ** The built-ins

    [float(s)] and [int(s)] on a [str]: [None] where Python raises
    [ValueError].  Only that alternative reaches the control flow of the
    shell; the value is passed on untouched.  [upper_non_ascii] is
    [s.upper()] on a [str] with a character outside ASCII, where the
    built-in follows the Unicode case tables.  [repr_nested] and
    [dumps_nested] are [repr(v)] and [json.dumps(v, indent=2)] on a container
    that holds containers: [None] where they return, and the failure where
    they raise, which depends on the depth the interpreter has left. *)
Class Builtins : Type :=
  { float_of_str : string -> option float;
    int_of_str : string -> option Z;
    upper_non_ascii : string -> string;
    repr_nested : pyval -> option render_failure;
    dumps_nested : pyval -> option render_failure }.

(** What rendering [v] raises, if anything: on a flat value only the limit
    on digits matters. *)
Definition render_with (nested : pyval -> option render_failure) (v : pyval) : option exn :=
  if flat v then (if formats v then None else Some format_error)
  else option_map exn_of_failure (nested v).

(** [f"{v}"] *)
Definition str_raises {B : Builtins} (v : pyval) : option exn := render_with repr_nested v.

(** [json.dumps(v, indent=2)] *)
Definition dumps_raises {B : Builtins} (v : pyval) : option exn := render_with dumps_nested v.

(** ** The adapter and the world *)

Inductive call : Type :=
| Client_init (api_key api_secret : string) (testnet : bool)
| futures_time
| futures_account
| futures_create_order (kwargs : list (string * pyval))
| futures_get_order (kwargs : list (string * pyval))
| futures_cancel_order (kwargs : list (string * pyval))
| futures_account_balance.

Definition response : Type := (pyval + exn)%type.

(** The client library and the exchange behind it: the answer to a call,
    given the calls made so far. *)
Record Adapter : Type := { respond : list call -> call -> response }.

Inductive level : Type := INFO | WARNING | ERROR.

(** An f-string is kept as its pieces: literal text, [{v}] and
    [{json.dumps(v, indent=2)}]. *)
Inductive frag : Type :=
| Lit (s : string)
| Fmt (v : pyval)
| Dumps (v : pyval).

Definition message : Type := list frag.

(** What the evaluation of an f-string raises, if anything: its pieces are
    rendered from left to right. *)
Definition frag_raises {B : Builtins} (f : frag) : option exn :=
  match f with
  | Lit _ => None
  | Fmt v => str_raises v
  | Dumps v => dumps_raises v
  end.

Fixpoint message_raises {B : Builtins} (m : message) : option exn :=
  match m with
  | [] => None
  | f :: rest =>
      match frag_raises f with
      | Some e => Some e
      | None => message_raises rest
      end
  end.

Inductive event : Type :=
| Printed (m : message)
| Logged (lvl : level) (m : message)
| Input (prompt : string) (line : option string)
| Called (c : call) (r : response).

Record world : Type := { stdin : list string; trace : list event }.

Fixpoint calls_of (t : list event) : list call :=
  match t with
  | [] => []
  | Called c _ :: rest => c :: calls_of rest
  | _ :: rest => calls_of rest
  end.

Definition calls (w : world) : list call := calls_of (trace w).

(** ** The monad *)

Inductive outcome (A : Type) : Type :=
| Ret (a : A)
| Raise (e : exn)
| OutOfFuel.

Arguments Ret {A} a.
Arguments Raise {A} e.
Arguments OutOfFuel {A}.

Definition M (A : Type) : Type := world -> outcome A * world.

Definition ret {A} (a : A) : M A := fun w => (Ret a, w).

Definition raise {A} (e : exn) : M A := fun w => (Raise e, w).

Definition out_of_fuel {A} : M A := fun w => (OutOfFuel, w).

Definition bind {A B} (m : M A) (k : A -> M B) : M B :=
  fun w =>
    match m w with
    | (Ret a, w') => k a w'
    | (Raise e, w') => (Raise e, w')
    | (OutOfFuel, w') => (OutOfFuel, w')
    end.

Notation "x <- m ;; k" := (bind m (fun x => k))
  (at level 61, m at next level, right associativity).
Notation "m ;; k" := (bind m (fun _ => k))
  (at level 61, right associativity).

(** [try: m except C1 as e: ... except C2 as e: ...]: the clauses are tried
    in order; an exception none of them matches propagates. *)
Definition handler (A : Type) : Type := exn -> option (M A).

Definition except_ {A} (cls : exn -> bool) (body : exn -> M A) : handler A :=
  fun e => if cls e then Some (body e) else None.

Definition orelse {A} (h1 h2 : handler A) : handler A :=
  fun e => match h1 e with Some k => Some k | None => h2 e end.

Infix "|:" := orelse (at level 60, right associativity).

Definition try_except {A} (m : M A) (h : handler A) : M A :=
  fun w =>
    match m w with
    | (Raise e, w') =>
        match h e with
        | Some k => k w'
        | None => (Raise e, w')
        end
    | r => r
    end.

Definition emit (ev : event) : M unit :=
  fun w => (Ret tt, {| stdin := stdin w; trace := trace w ++ [ev] |}).

(** The f-string [m] is evaluated, then [k] runs; when a piece of [m] cannot
    be rendered the evaluation raises and [k] does not run. *)
Definition formatted {B : Builtins} {A} (m : message) (k : M A) : M A :=
  match message_raises m with
  | None => k
  | Some e => raise e
  end.

Definition print {B : Builtins} (m : message) : M unit :=
  formatted m (emit (Printed m)).
Definition logger_info {B : Builtins} (m : message) : M unit :=
  formatted m (emit (Logged INFO m)).
Definition logger_warning {B : Builtins} (m : message) : M unit :=
  formatted m (emit (Logged WARNING m)).
Definition logger_error {B : Builtins} (m : message) : M unit :=
  formatted m (emit (Logged ERROR m)).

(** [sys.exit(n)] raises [SystemExit(n)]. *)
Definition sys_exit {A} (n : Z) : M A := raise (SystemExit n).

(** [input(prompt)] *)
Definition input (prompt : string) : M string :=
  fun w =>
    match stdin w with
    | [] => (Raise (EOFError "EOF when reading a line"),
             {| stdin := []; trace := trace w ++ [Input prompt None] |})
    | l :: rest => (Ret l, {| stdin := rest; trace := trace w ++ [Input prompt (Some l)] |})
    end.

(** [v.get(key)] *)
Definition py_get (v : pyval) (key : string) : M pyval :=
  match v with
  | PDict d => ret (match assoc key d with Some x => x | None => PNone end)
  | _ => raise (no_attribute v "get")
  end.

(** ** class BasicBot *)

Record ClientHandle : Type :=
  { API_URL : option string; FUTURES_URL : option string }.

Record BasicBot : Type :=
  { api_key : string; api_secret : string; testnet : bool; client : ClientHandle }.

Definition error_result (e : exn) : pyval := PDict [("error", PStr (str_exn e))].

Section Facade.

Context {B : Builtins}.
Variable net : Adapter.

(** A call through [self.client]: answered by the adapter, and recorded. *)
Definition do_call (c : call) : M pyval :=
  fun w =>
    let r := respond net (calls w) c in
    let w' := {| stdin := stdin w; trace := trace w ++ [Called c r] |} in
    match r with
    | inl v => (Ret v, w')
    | inr e => (Raise e, w')
    end.

Definition _verify_connection (self : BasicBot) : M unit :=
  try_except
    (server_time <- do_call futures_time ;;
     t <- py_get server_time "serverTime" ;;
     logger_info [Lit "Connection verified. Server time: "; Fmt t] ;;
     try_except
       (account <- do_call futures_account ;;
        logger_info [Lit "API key has correct futures permissions"])
       (except_ is_BinanceAPIException (fun e =>
          (if code_is e (-2015) then
             logger_error [Lit "API key doesn't have futures permissions or IP not whitelisted"] ;;
             logger_error [Lit "Please create a new API key with 'Enable Futures' checked"]
           else ret tt) ;;
          raise e)))
    (except_ is_BinanceAPIException (fun e =>
       logger_error [Lit "Error verifying connection: "; Lit (str_exn e)] ;;
       raise e)
     |: except_ is_RequestException (fun e =>
       logger_error [Lit "Network error verifying connection: "; Lit (str_exn e)] ;;
       raise e)).

Definition BasicBot_init (api_key api_secret : string) (testnet : bool) : M BasicBot :=
  try_except
    (self <-
       (if testnet then
          do_call (Client_init api_key api_secret true) ;;
          ret {| api_key := api_key; api_secret := api_secret; testnet := testnet;
                 client := {| API_URL := Some "https://testnet.binancefuture.com";
                              FUTURES_URL := Some "https://testnet.binancefuture.com/fapi" |} |}
        else
          do_call (Client_init api_key api_secret false) ;;
          ret {| api_key := api_key; api_secret := api_secret; testnet := testnet;
                 client := {| API_URL := None; FUTURES_URL := None |} |}) ;;
     logger_info [Lit "Bot initialized successfully. Testnet: "; Fmt (PBool testnet)] ;;
     _verify_connection self ;;
     ret self)
    (except_ is_Exception (fun e =>
       logger_error [Lit "Error during bot initialization: "; Lit (str_exn e)] ;;
       sys_exit 1)).

Definition place_market_order (self : BasicBot) (symbol side quantity : pyval) : M pyval :=
  let order_details := PDict [("symbol", symbol); ("side", side); ("quantity", quantity)] in
  logger_info [Lit "Placing MARKET order: "; Fmt order_details] ;;
  try_except
    (order <- do_call (futures_create_order
                         [("symbol", symbol); ("side", side);
                          ("type", PStr "MARKET"); ("quantity", quantity)]) ;;
     logger_info [Lit "Successfully placed MARKET order. Response: "; Fmt order] ;;
     ret order)
    (except_ is_BinanceAPIException (fun e =>
       logger_error [Lit "Binance API Error placing MARKET order: "; Lit (str_exn e)] ;;
       ret (error_result e))
     |: except_ is_BinanceOrderException (fun e =>
       logger_error [Lit "Binance Order Error placing MARKET order: "; Lit (str_exn e)] ;;
       ret (error_result e))
     |: except_ is_Exception (fun e =>
       logger_error [Lit "Unexpected error placing MARKET order: "; Lit (str_exn e)] ;;
       ret (error_result e))).

Definition place_limit_order (self : BasicBot) (symbol side quantity price : pyval) : M pyval :=
  let order_details :=
    PDict [("symbol", symbol); ("side", side); ("quantity", quantity); ("price", price)] in
  logger_info [Lit "Placing LIMIT order: "; Fmt order_details] ;;
  try_except
    (order <- do_call (futures_create_order
                         [("symbol", symbol); ("side", side); ("type", PStr "LIMIT");
                          ("timeInForce", PStr "GTC");
                          ("quantity", quantity); ("price", price)]) ;;
     logger_info [Lit "Successfully placed LIMIT order. Response: "; Fmt order] ;;
     ret order)
    (except_ is_BinanceAPIException (fun e =>
       logger_error [Lit "Binance API Error placing LIMIT order: "; Lit (str_exn e)] ;;
       ret (error_result e))
     |: except_ is_BinanceOrderException (fun e =>
       logger_error [Lit "Binance Order Error placing LIMIT order: "; Lit (str_exn e)] ;;
       ret (error_result e))
     |: except_ is_Exception (fun e =>
       logger_error [Lit "Unexpected error placing LIMIT order: "; Lit (str_exn e)] ;;
       ret (error_result e))).

Definition place_stop_limit_order (self : BasicBot)
    (symbol side quantity stop_price limit_price : pyval) : M pyval :=
  let order_details :=
    PDict [("symbol", symbol); ("side", side); ("quantity", quantity);
           ("stop_price", stop_price); ("limit_price", limit_price)] in
  logger_info [Lit "Placing STOP_LIMIT order: "; Fmt order_details] ;;
  try_except
    (order <- do_call (futures_create_order
                         [("symbol", symbol); ("side", side); ("type", PStr "STOP");
                          ("timeInForce", PStr "GTC"); ("quantity", quantity);
                          ("price", limit_price); ("stopPrice", stop_price)]) ;;
     logger_info [Lit "Successfully placed STOP_LIMIT order. Response: "; Fmt order] ;;
     ret order)
    (except_ is_BinanceAPIException (fun e =>
       logger_error [Lit "Binance API Error placing STOP_LIMIT order: "; Lit (str_exn e)] ;;
       ret (error_result e))
     |: except_ is_BinanceOrderException (fun e =>
       logger_error [Lit "Binance Order Error placing STOP_LIMIT order: "; Lit (str_exn e)] ;;
       ret (error_result e))
     |: except_ is_Exception (fun e =>
       logger_error [Lit "Unexpected error placing STOP_LIMIT order: "; Lit (str_exn e)] ;;
       ret (error_result e))).

Definition get_order_status (self : BasicBot) (symbol order_id : pyval) : M pyval :=
  logger_info [Lit "Getting order status for Order ID "; Fmt order_id; Lit " on "; Fmt symbol] ;;
  try_except
    (order_status <- do_call (futures_get_order [("symbol", symbol); ("orderId", order_id)]) ;;
     ret order_status)
    (except_ is_BinanceAPIException (fun e =>
       logger_error [Lit "Binance API Error getting order status: "; Lit (str_exn e)] ;;
       ret (error_result e))
     |: except_ is_Exception (fun e =>
       logger_error [Lit "Unexpected error getting order status: "; Lit (str_exn e)] ;;
       ret (error_result e))).

Definition cancel_order (self : BasicBot) (symbol order_id : pyval) : M pyval :=
  logger_info [Lit "Cancelling Order ID "; Fmt order_id; Lit " on "; Fmt symbol] ;;
  try_except
    (response <- do_call (futures_cancel_order [("symbol", symbol); ("orderId", order_id)]) ;;
     logger_info [Lit "Successfully cancelled order. Response: "; Fmt response] ;;
     ret response)
    (except_ is_BinanceAPIException (fun e =>
       logger_error [Lit "Binance API Error cancelling order: "; Lit (str_exn e)] ;;
       ret (error_result e))
     |: except_ is_Exception (fun e =>
       logger_error [Lit "Unexpected error cancelling order: "; Lit (str_exn e)] ;;
       ret (error_result e))).

Definition get_account_balance (self : BasicBot) : M pyval :=
  logger_info [Lit "Getting account balance..."] ;;
  try_except
    (balance <- do_call futures_account_balance ;;
     ret balance)
    (except_ is_BinanceAPIException (fun e =>
       logger_error [Lit "Binance API Error getting account balance: "; Lit (str_exn e)] ;;
       ret (error_result e))
     |: except_ is_Exception (fun e =>
       logger_error [Lit "Unexpected error getting account balance: "; Lit (str_exn e)] ;;
       ret (error_result e))).

End Facade.

(** ** The interactive shell *)

Inductive input_type : Type := T_str | T_float | T_int.

(** [input_type.__name__] *)
Definition type_name (ty : input_type) : string :=
  match ty with T_str => "str" | T_float => "float" | T_int => "int" end.

Definition nl : string := String (ascii_of_nat 10) EmptyString.

(** [s * n] *)
Fixpoint repeat_str (s : string) (n : nat) : string :=
  match n with
  | O => EmptyString
  | S k => (s ++ repeat_str s k)%string
  end.

(** [pat in s] *)
Definition contains (pat s : string) : bool :=
  match String.index 0 pat s with Some _ => true | None => false end.

(** [s.upper()], on ASCII letters. *)
Definition upper_ascii (c : ascii) : ascii :=
  let n := nat_of_ascii c in
  if (97 <=? n)%nat && (n <=? 122)%nat then ascii_of_nat (n - 32) else c.

Fixpoint upper (s : string) : string :=
  match s with
  | EmptyString => EmptyString
  | String c rest => String (upper_ascii c) (upper rest)
  end.

Definition is_ascii (s : string) : bool :=
  forallb (fun c => (nat_of_ascii c <? 128)%nat) (list_ascii_of_string s).

(** [s.upper()]: on ASCII text the letters a-z become A-Z and nothing else
    changes; other text is left to the built-in. *)
Definition str_upper {B : Builtins} (s : string) : string :=
  if is_ascii s then upper s else upper_non_ascii s.

Definition py_upper {B : Builtins} (v : pyval) : M pyval :=
  match v with
  | PStr s => ret (PStr (str_upper s))
  | _ => raise (no_attribute v "upper")
  end.

(** What one pass through the body of a [while True] loop asks for next. *)
Inductive control : Type := Continue | Break.

Section Shell.

Context {B : Builtins}.
Variable net : Adapter.

(** [input_type(user_input)] *)
Definition coerce (ty : input_type) (s : string) : M pyval :=
  match ty with
  | T_str => ret (PStr s)
  | T_float =>
      match float_of_str s with
      | Some x => ret (PFloat x)
      | None => raise (ValueError ("could not convert string to float: " ++ s)%string)
      end
  | T_int =>
      match int_of_str s with
      | Some n => ret (PInt n)
      | None => raise (ValueError ("invalid literal for int() with base 10: " ++ s)%string)
      end
  end.

Definition print_menu : M string :=
  print [Lit (nl ++ repeat_str "=" 50)%string] ;;
  print [Lit "BINANCE TESTNET TRADING BOT"] ;;
  print [Lit (repeat_str "=" 50)] ;;
  print [Lit "1. Place Market Order"] ;;
  print [Lit "2. Place Limit Order"] ;;
  print [Lit "3. Place Stop-Limit Order"] ;;
  print [Lit "4. Check Order Status"] ;;
  print [Lit "5. Cancel Order"] ;;
  print [Lit "6. Check Account Balance"] ;;
  print [Lit "7. Exit"] ;;
  print [Lit (repeat_str "=" 50)] ;;
  input "Enter your choice (1-7): ".

Definition invalid_input (ty : input_type) : message :=
  [Lit "Invalid input. Please enter a valid "; Lit (type_name ty); Lit "."].

(** [while True: try: return input_type(input(prompt)) except ...]: a pass
    that ends in an [except] clause yields [None] and the loop goes round. *)
Fixpoint get_user_input (fuel : nat) (prompt : string) (ty : input_type) : M pyval :=
  match fuel with
  | O => out_of_fuel
  | S f =>
      r <- try_except
             (user_input <- input prompt ;;
              v <- coerce ty user_input ;;
              ret (Some v))
             (except_ is_ValueError (fun _ =>
                print (invalid_input ty) ;;
                ret None)
              |: except_ is_Exception (fun e =>
                print [Lit "An error occurred: "; Lit (str_exn e)] ;;
                ret None)) ;;
      match r with
      | Some v => ret v
      | None => get_user_input f prompt ty
      end
  end.

Definition show_result (result : pyval) : M unit :=
  print [Lit (nl ++ "Result: ")%string; Dumps result].

(** The body of the [try] in the loop of [main]. *)
Definition loop_body (fuel : nat) (bot : BasicBot) : M control :=
  choice <- print_menu ;;
  if String.eqb choice "1" then
    symbol <- get_user_input fuel "Enter symbol (e.g., BTCUSDT): " T_str ;;
    side0 <- get_user_input fuel "Enter side (BUY or SELL): " T_str ;;
    side <- py_upper side0 ;;
    quantity <- get_user_input fuel "Enter quantity: " T_float ;;
    result <- place_market_order net bot symbol side quantity ;;
    show_result result ;;
    ret Continue
  else if String.eqb choice "2" then
    symbol <- get_user_input fuel "Enter symbol (e.g., BTCUSDT): " T_str ;;
    side0 <- get_user_input fuel "Enter side (BUY or SELL): " T_str ;;
    side <- py_upper side0 ;;
    quantity <- get_user_input fuel "Enter quantity: " T_float ;;
    price <- get_user_input fuel "Enter limit price: " T_float ;;
    result <- place_limit_order net bot symbol side quantity price ;;
    show_result result ;;
    ret Continue
  else if String.eqb choice "3" then
    symbol <- get_user_input fuel "Enter symbol (e.g., BTCUSDT): " T_str ;;
    side0 <- get_user_input fuel "Enter side (BUY or SELL): " T_str ;;
    side <- py_upper side0 ;;
    quantity <- get_user_input fuel "Enter quantity: " T_float ;;
    stop_price <- get_user_input fuel "Enter stop price: " T_float ;;
    limit_price <- get_user_input fuel "Enter limit price: " T_float ;;
    result <- place_stop_limit_order net bot symbol side quantity stop_price limit_price ;;
    show_result result ;;
    ret Continue
  else if String.eqb choice "4" then
    symbol <- get_user_input fuel "Enter symbol (e.g., BTCUSDT): " T_str ;;
    order_id <- get_user_input fuel "Enter order ID: " T_int ;;
    result <- get_order_status net bot symbol order_id ;;
    show_result result ;;
    ret Continue
  else if String.eqb choice "5" then
    symbol <- get_user_input fuel "Enter symbol (e.g., BTCUSDT): " T_str ;;
    order_id <- get_user_input fuel "Enter order ID: " T_int ;;
    result <- cancel_order net bot symbol order_id ;;
    show_result result ;;
    ret Continue
  else if String.eqb choice "6" then
    balance <- get_account_balance net bot ;;
    print [Lit (nl ++ "Account Balance: ")%string; Dumps balance] ;;
    ret Continue
  else if String.eqb choice "7" then
    print [Lit "Exiting bot..."] ;;
    logger_info [Lit "Bot shutdown by user"] ;;
    ret Break
  else
    print [Lit "Invalid choice. Please select 1-7"] ;;
    ret Continue.

Definition loop_handler : handler control :=
  except_ is_Exception (fun e =>
    print [Lit "An unexpected error occurred in the main loop: "; Lit (str_exn e)] ;;
    logger_warning [Lit "Unexpected error in main loop: "; Lit (str_exn e)] ;;
    ret Continue).

Fixpoint main_loop (fuel : nat) (bot : BasicBot) : M unit :=
  match fuel with
  | O => out_of_fuel
  | S f =>
      c <- try_except (loop_body f bot) loop_handler ;;
      match c with
      | Break => ret tt
      | Continue => main_loop f bot
      end
  end.

Definition keys_not_set (API_KEY API_SECRET : string) : bool :=
  contains "YOUR_NEW_API_KEY_HERE" API_KEY || contains "YOUR_NEW_API_SECRET_HERE" API_SECRET.

(** The [except Exception] clause around the construction of the bot. *)
Definition init_failure : handler (option BasicBot) :=
  except_ is_Exception (fun e =>
    print [Lit (nl ++ repeat_str "=" 50)%string] ;;
    print [Lit "Failed to initialize bot. Please check:"] ;;
    print [Lit "1. API key has 'Enable Futures' permission"] ;;
    print [Lit "2. Your IP is whitelisted (if you set restrictions)"] ;;
    print [Lit "3. You're using keys from testnet.binancefuture.com"] ;;
    print [Lit (repeat_str "=" 50 ++ nl)%string] ;;
    print [Lit "Error: "; Lit (str_exn e)] ;;
    ret None).

(** [main()].  The source binds [API_KEY] and [API_SECRET] to two literals
    at the top of the function; here they are arguments. *)
Definition main (fuel : nat) (API_KEY API_SECRET : string) : M unit :=
  if keys_not_set API_KEY API_SECRET then
    print [Lit (repeat_str "=" 50)] ;;
    print [Lit "ERROR: Please update API_KEY and API_SECRET in main()"] ;;
    print [Lit (nl ++ "STEPS TO FIX:")%string] ;;
    print [Lit "1. Go to: https://testnet.binancefuture.com/"] ;;
    print [Lit "2. Login and go to API Key Management"] ;;
    print [Lit "3. Generate NEW API Key with 'Enable Futures' CHECKED"] ;;
    print [Lit "4. If setting IP restrictions, whitelist your current IP"] ;;
    print [Lit "5. Copy the new keys and paste them in the code"] ;;
    print [Lit (repeat_str "=" 50)] ;;
    logger_error [Lit "API keys not set. Exiting."] ;;
    sys_exit 1
  else
    r <- try_except
           (bot <- BasicBot_init net API_KEY API_SECRET true ;;
            ret (Some bot))
           init_failure ;;
    match r with
    | None => ret tt
    | Some bot => main_loop fuel bot
    end.

End Shell.

(** ** The process *)

Definition start (lines : list string) : world := {| stdin := lines; trace := [] |}.

(** The exit status of the interpreter running [main()] as a script: 0 when
    [main] returns, the code of an uncaught [SystemExit], 1 on any other
    uncaught [Exception].  An uncaught [KeyboardInterrupt] ends the process
    by signal, and a run that never ends has no status. *)
Definition exit_status {A} (o : outcome A) : option Z :=
  match o with
  | Ret _ => Some 0%Z
  | Raise (SystemExit c) => Some c
  | Raise KeyboardInterrupt => None
  | Raise _ => Some 1%Z
  | OutOfFuel => None
  end.

(** ** The six operations, as one family

    A name for each way of calling the facade, so that a statement can range
    over "every operation".  [adapter_call] is the client method an operation
    invokes, with the keyword arguments it passes. *)

Inductive facade_op : Type :=
| Market (symbol side quantity : pyval)
| Limit (symbol side quantity price : pyval)
| StopLimit (symbol side quantity stop_price limit_price : pyval)
| OrderStatus (symbol order_id : pyval)
| CancelOrder (symbol order_id : pyval)
| AccountBalance.

Definition run_op {B : Builtins} (net : Adapter) (self : BasicBot) (op : facade_op)
  : M pyval :=
  match op with
  | Market s sd q => place_market_order net self s sd q
  | Limit s sd q p => place_limit_order net self s sd q p
  | StopLimit s sd q sp lp => place_stop_limit_order net self s sd q sp lp
  | OrderStatus s i => get_order_status net self s i
  | CancelOrder s i => cancel_order net self s i
  | AccountBalance => get_account_balance net self
  end.

Definition adapter_call (op : facade_op) : call :=
  match op with
  | Market s sd q =>
      futures_create_order
        [("symbol", s); ("side", sd); ("type", PStr "MARKET"); ("quantity", q)]
  | Limit s sd q p =>
      futures_create_order
        [("symbol", s); ("side", sd); ("type", PStr "LIMIT"); ("timeInForce", PStr "GTC");
         ("quantity", q); ("price", p)]
  | StopLimit s sd q sp lp =>
      futures_create_order
        [("symbol", s); ("side", sd); ("type", PStr "STOP"); ("timeInForce", PStr "GTC");
         ("quantity", q); ("price", lp); ("stopPrice", sp)]
  | OrderStatus s i => futures_get_order [("symbol", s); ("orderId", i)]
  | CancelOrder s i => futures_cancel_order [("symbol", s); ("orderId", i)]
  | AccountBalance => futures_account_balance
  end.

(** The line an operation logs on entry, before its [try]. *)
Definition entry_message (op : facade_op) : message :=
  match op with
  | Market s sd q =>
      [Lit "Placing MARKET order: ";
       Fmt (PDict [("symbol", s); ("side", sd); ("quantity", q)])]
  | Limit s sd q p =>
      [Lit "Placing LIMIT order: ";
       Fmt (PDict [("symbol", s); ("side", sd); ("quantity", q); ("price", p)])]
  | StopLimit s sd q sp lp =>
      [Lit "Placing STOP_LIMIT order: ";
       Fmt (PDict [("symbol", s); ("side", sd); ("quantity", q);
                   ("stop_price", sp); ("limit_price", lp)])]
  | OrderStatus s i =>
      [Lit "Getting order status for Order ID "; Fmt i; Lit " on "; Fmt s]
  | CancelOrder s i => [Lit "Cancelling Order ID "; Fmt i; Lit " on "; Fmt s]
  | AccountBalance => [Lit "Getting account balance..."]
  end.

(** What rendering the arguments of an operation for that line raises, if
    anything. *)
Definition entry_raises {B : Builtins} (op : facade_op) : option exn :=
  message_raises (entry_message op).

(** The operations that log the payload of a successful call, inside their
    [try]; the two others return it unlogged. *)
Definition logs_response (op : facade_op) : bool :=
  match op with
  | OrderStatus _ _ | AccountBalance => false
  | _ => true
  end.

(** What an operation hands back for a given answer of the adapter, once the
    call is made: a payload that is logged must be rendered, and what that
    raises lands in the [except Exception] clause like an error of the
    adapter. *)
Definition facade_outcome {B : Builtins} (op : facade_op) (r : response) : outcome pyval :=
  match r with
  | inl p =>
      if logs_response op then
        match str_raises p with
        | None => Ret p
        | Some e => Ret (error_result e)
        end
      else Ret p
  | inr e => if is_Exception e then Ret (error_result e) else Raise e
  end.





(** An adapter call that raised an error. *)
Definition raised_error (ev : event) : bool :=
  match ev with
  | Called _ (inr e) => is_Exception e
  | _ => false
  end.

(** ** The field collection of the shell, read as a function

    What the sequence of [get_user_input] calls of a menu branch amounts to
    on the lines of standard input: a field of type [ty] skips the lines
    [ty] rejects and takes the first line it accepts.  These definitions
    follow the description "prompt for each required field, coerce, and ask
    again on failure"; the lemmas below relate them to the loops of the
    source. *)

Section Fields.

Context {B : Builtins}.

(** The value [ty(s)] when the coercion succeeds. *)
Definition accepts (ty : input_type) (s : string) : option pyval :=
  match ty with
  | T_str => Some (PStr s)
  | T_float => option_map PFloat (float_of_str s)
  | T_int => option_map PInt (int_of_str s)
  end.

Fixpoint read_field (ty : input_type) (lines : list string) : option (pyval * list string) :=
  match lines with
  | [] => None
  | l :: rest =>
      match accepts ty l with
      | Some v => Some (v, rest)
      | None => read_field ty rest
      end
  end.

Fixpoint read_fields (tys : list input_type) (lines : list string)
  : option (list pyval * list string) :=
  match tys with
  | [] => Some ([], lines)
  | ty :: more =>
      match read_field ty lines with
      | Some (v, rest) =>
          match read_fields more rest with
          | Some (vs, rest') => Some (v :: vs, rest')
          | None => None
          end
      | None => None
      end
  end.

End Fields.

(** The fields each menu choice asks for, in order. *)
Definition fields_of (choice : string) : option (list input_type) :=
  if String.eqb choice "1" then Some [T_str; T_str; T_float]
  else if String.eqb choice "2" then Some [T_str; T_str; T_float; T_float]
  else if String.eqb choice "3" then Some [T_str; T_str; T_float; T_float; T_float]
  else if String.eqb choice "4" then Some [T_str; T_int]
  else if String.eqb choice "5" then Some [T_str; T_int]
  else if String.eqb choice "6" then Some []
  else None.

(** [side.upper()] as a value, when [side] is a [str]. *)
Definition upper_val {B : Builtins} (v : pyval) : option pyval :=
  match v with
  | PStr s => Some (PStr (str_upper s))
  | _ => None
  end.

(** The operation a menu choice runs on the collected fields. *)
Definition dispatch {B : Builtins} (choice : string) (vals : list pyval)
  : option facade_op :=
  match vals with
  | [] => if String.eqb choice "6" then Some AccountBalance else None
  | [symbol; order_id] =>
      if String.eqb choice "4" then Some (OrderStatus symbol order_id)
      else if String.eqb choice "5" then Some (CancelOrder symbol order_id)
      else None
  | [symbol; side; quantity] =>
      if String.eqb choice "1"
      then option_map (fun sd => Market symbol sd quantity) (upper_val side)
      else None
  | [symbol; side; quantity; price] =>
      if String.eqb choice "2"
      then option_map (fun sd => Limit symbol sd quantity price) (upper_val side)
      else None
  | [symbol; side; quantity; stop_price; limit_price] =>
      if String.eqb choice "3"
      then option_map (fun sd => StopLimit symbol sd quantity stop_price limit_price)
             (upper_val side)
      else None
  | _ => None
  end.

(** What [print_menu] writes before it reads the choice. *)
Definition menu_text : list event :=
  [Printed [Lit (nl ++ repeat_str "=" 50)%string];
   Printed [Lit "BINANCE TESTNET TRADING BOT"];
   Printed [Lit (repeat_str "=" 50)];
   Printed [Lit "1. Place Market Order"];
   Printed [Lit "2. Place Limit Order"];
   Printed [Lit "3. Place Stop-Limit Order"];
   Printed [Lit "4. Check Order Status"];
   Printed [Lit "5. Cancel Order"];
   Printed [Lit "6. Check Account Balance"];
   Printed [Lit "7. Exit"];
   Printed [Lit (repeat_str "=" 50)]].

(** The text the shell prints before the result of a menu choice. *)
Definition result_label (choice : string) : string :=
  if String.eqb choice "6" then "Account Balance: " else "Result: ".

(** How one pass of the menu loop ends once the fields of its operation are
    read, for a given answer of the adapter: the entry line of the operation
    must be rendered, then what the operation returns must be rendered by
    [json.dumps] and is printed, and the loop goes on. *)
Definition after_operation {B : Builtins} (op : facade_op) (r : response)
  : outcome control :=
  match entry_raises op with
  | Some e => Raise e
  | None =>
      match facade_outcome op r with
      | Ret v =>
          match dumps_raises v with
          | None => Ret Continue
          | Some e => Raise e
          end
      | Raise e => Raise e
      | OutOfFuel => OutOfFuel
      end
  end.

(** The adapter calls of an operation: one, unless its entry line cannot be
    rendered. *)
Definition calls_made {B : Builtins} (op : facade_op) : list call :=
  match entry_raises op with
  | None => [adapter_call op]
  | Some _ => []
  end.

(** ** Sample environments

    Concrete adapters and a concrete reading of the built-ins, on which the
    model runs.  [sample_float] and [sample_int] accept unsigned decimal
    literals only, the sample [upper_non_ascii] changes nothing and the
    sample interpreter has stack enough for every value; they stand in for
    the built-ins where a statement is exercised on an input, and nothing is
    proved about the built-ins themselves. *)

(** The adapter that answers its [n]-th call with the [n]-th entry of [rs]. *)
Definition scripted (rs : list response) (default : response) : Adapter :=
  {| respond := fun h _ => nth (List.length h) rs default |}.

(** The adapter that gives every call the same answer. *)
Definition always (r : response) : Adapter := {| respond := fun _ _ => r |}.

Definition sample_bot : BasicBot :=
  {| api_key := "key"; api_secret := "secret"; testnet := true;
     client := {| API_URL := Some "https://testnet.binancefuture.com";
                  FUTURES_URL := Some "https://testnet.binancefuture.com/fapi" |} |}.

Definition digit_of (c : ascii) : option Z :=
  let n := nat_of_ascii c in
  if (48 <=? n)%nat && (n <=? 57)%nat then Some (Z.of_nat (n - 48)) else None.

Fixpoint digits (s : string) (acc : Z) : option Z :=
  match s with
  | EmptyString => Some acc
  | String c rest =>
      match digit_of c with
      | Some d => digits rest (10 * acc + d)%Z
      | None => None
      end
  end.

Definition sample_int (s : string) : option Z :=
  match s with
  | EmptyString => None
  | _ => digits s 0%Z
  end.

Fixpoint split_dot (s : string) : string * option string :=
  match s with
  | EmptyString => (EmptyString, None)
  | String c rest =>
      if Ascii.eqb c "." then (EmptyString, Some rest)
      else let (a, b) := split_dot rest in (String c a, b)
  end.

Definition float_of_Z (z : Z) : float := PrimFloat.of_uint63 (Uint63.of_Z z).

Definition sample_float (s : string) : option float :=
  match split_dot s with
  | (i, None) => option_map float_of_Z (sample_int i)
  | (i, Some f) =>
      match sample_int i, sample_int f with
      | Some a, Some b =>
          let scale := (10 ^ Z.of_nat (String.length f))%Z in
          Some (PrimFloat.div (float_of_Z (a * scale + b)) (float_of_Z scale))
      | _, _ => None
      end
  end.

Definition sample_nested (v : pyval) : option render_failure :=
  if formats v then None else Some DigitLimit.

Definition sample_builtins : Builtins :=
  {| float_of_str := sample_float; int_of_str := sample_int;
     upper_non_ascii := fun s => s;
     repr_nested := sample_nested; dumps_nested := sample_nested |}.

(** An [int] of 4301 digits: 1 followed by 4300 zeros. *)
Definition huge : Z := Z.of_uint (Decimal.D1 (Nat.iter 4300 Decimal.D0 Decimal.Nil)).

Definition denied : exn :=
  BinanceAPIException (Some (-2015)%Z)
    "APIError(code=-2015): Invalid API-key, IP, or permissions for action.".

(** An exchange that refuses the account-info check of the constructor. *)
Definition sample_denied : Adapter :=
  scripted [inl PNone; inl (PDict [("serverTime", PInt 1700000000000)]); inr denied]
    (inl PNone).

(** An exchange that cannot be reached. *)
Definition sample_unreachable : Adapter :=
  always (inr (RequestException "HTTPSConnectionPool: Max retries exceeded")).

(** An exchange that accepts everything. *)
Definition sample_exchange : Adapter :=
  always (inl (PDict [("serverTime", PInt 1700000000000); ("orderId", PInt 1)])).

(** ** Basic facts about traces and rendering *)

Lemma calls_of_app (a b : list event) : calls_of (a ++ b) = calls_of a ++ calls_of b.
Proof.
  induction a as [|ev a IH]; [reflexivity|].
  destruct ev; cbn; rewrite IH; reflexivity.
Qed.

Lemma calls_emit (ev : event) (w : world) :
  (forall c r, ev <> Called c r) -> calls (snd (emit ev w)) = calls w.
Proof.
  intros Hev. unfold calls, emit; cbn. rewrite calls_of_app.
  destruct ev; cbn; try apply app_nil_r. exfalso; eapply Hev; reflexivity.
Qed.

Lemma render_with_error (nested : pyval -> option render_failure) (v : pyval) (e : exn) :
  render_with nested v = Some e -> is_render_error e = true.
Proof.
  unfold render_with. destruct (flat v).
  - destruct (formats v); [discriminate|]. intros [= <-]. reflexivity.
  - destruct (nested v) as [[|t]|]; cbn; try discriminate; intros [= <-]; reflexivity.
Qed.

Lemma render_with_flat (nested : pyval -> option render_failure) (v : pyval) :
  flat v = true -> formats v = true -> render_with nested v = None.
Proof. unfold render_with. intros -> ->. reflexivity. Qed.

Lemma render_with_digits (nested : pyval -> option render_failure) (v : pyval) :
  flat v = true -> formats v = false -> render_with nested v = Some format_error.
Proof. unfold render_with. intros -> ->. reflexivity. Qed.

Section Rendering.

Context {B : Builtins}.

Lemma str_raises_error (v : pyval) (e : exn) :
  str_raises v = Some e -> is_render_error e = true.
Proof. apply render_with_error. Qed.

Lemma dumps_raises_error (v : pyval) (e : exn) :
  dumps_raises v = Some e -> is_render_error e = true.
Proof. apply render_with_error. Qed.

Lemma message_raises_error (m : message) (e : exn) :
  message_raises m = Some e -> is_render_error e = true.
Proof.
  induction m as [|f m IH]; cbn; [discriminate|].
  destruct f as [s|v|v]; cbn; [exact IH| |].
  - destruct (str_raises v) as [e'|] eqn:E; [|exact IH].
    intros [= <-]. exact (str_raises_error v e' E).
  - destruct (dumps_raises v) as [e'|] eqn:E; [|exact IH].
    intros [= <-]. exact (dumps_raises_error v e' E).
Qed.

Lemma render_error_is_Exception (e : exn) : is_render_error e = true -> is_Exception e = true.
Proof. destruct e; cbn; congruence. Qed.

(** The result of an operation that ends in an [except] clause is a flat dict
    of one [str]: it can always be rendered. *)
Lemma error_result_renders (e : exn) :
  str_raises (error_result e) = None /\ dumps_raises (error_result e) = None.
Proof. split; reflexivity. Qed.

End Rendering.

Lemma huge_is_past_the_limit : int_formats huge = false.
Proof.
  unfold int_formats, huge, Z.of_uint. rewrite Zabs2N.id.
  change (Pos.of_uint (Decimal.D1 (Nat.iter 4300 Decimal.D0 Decimal.Nil)))
    with (N.of_uint (Decimal.D1 (Nat.iter 4300 Decimal.D0 Decimal.Nil))).
  rewrite DecimalN.Unsigned.to_of. cbn [Decimal.unorm Decimal.nzhead Decimal.nb_digits].
  rewrite DecimalFacts.nb_digits_iter_D0. apply Nat.leb_gt. unfold max_str_digits.
  cbn [Decimal.nb_digits]. lia.
Qed.

Opaque huge.

Section Unrenderable.

Context {B : Builtins}.


Lemma quantity_unrenderable (symbol side : string) (n : Z) :
  int_formats n = false ->
  entry_raises (Market (PStr symbol) (PStr side) (PInt n)) = Some format_error.
Proof.
  intros H. unfold entry_raises. cbn. unfold str_raises, render_with. cbn. rewrite H.
  reflexivity.
Qed.



Lemma server_time_unrenderable (n : Z) :
  int_formats n = false -> str_raises (PInt n) = Some format_error.
Proof. intros H. unfold str_raises, render_with. cbn. rewrite H. reflexivity. Qed.

End Unrenderable.

Section FacadeFacts.

Context {B : Builtins}.
Variable net : Adapter.
Variable self : BasicBot.

Ltac run_facade :=
  unfold run_op, place_market_order, place_limit_order, place_stop_limit_order,
    get_order_status, cancel_order, get_account_balance, adapter_call, facade_outcome,
    entry_raises, entry_message, logs_response,
    bind, try_except, do_call, logger_info, logger_error, formatted;
  cbv zeta.

Ltac run_rest :=
  unfold emit, ret, raise, orelse, except_, calls; cbn;
  rewrite ?calls_of_app; cbn; rewrite ?app_nil_r.

(** One operation whose entry line cannot be rendered: it raises before its
    [try], having logged and called nothing. *)
Lemma run_op_unrenderable (op : facade_op) (w : world) (e : exn) :
  entry_raises op = Some e ->
  run_op net self op w = (Raise e, w).
Proof.
  destruct op; run_facade; intros ->; reflexivity.
Qed.

(** One operation whose entry line is rendered, whatever the adapter does:
    the value handed back, the single call made, and standard input left
    alone. *)
Lemma run_op_spec (op : facade_op) (w : world) :
  entry_raises op = None ->
  let r := respond net (calls w) (adapter_call op) in
  let w' := snd (run_op net self op w) in
  fst (run_op net self op w) = facade_outcome op r
  /\ calls w' = calls w ++ [adapter_call op]
  /\ stdin w' = stdin w
  /\ In (Called (adapter_call op) r) (trace w').
Proof.
  destruct op; run_facade; intros ->; run_rest;
    match goal with
    | |- context [respond net ?h ?c] => destruct (respond net h c) as [p|e]
    end; cbn;
    try (destruct (str_raises p) as [e'|] eqn:E;
         [pose proof (str_raises_error p e' E) as He'; destruct e'; try discriminate He'|];
         cbn);
    try (destruct e; cbn);
    rewrite ?calls_of_app; cbn; rewrite ?app_nil_r;
    repeat split; try reflexivity;
    rewrite ?in_app_iff; cbn; tauto.
Qed.

Lemma get_order_status_unrenderable (symbol order_id : pyval) (w : world) (e : exn) :
  entry_raises (OrderStatus symbol order_id) = Some e ->
  get_order_status net self symbol order_id w = (Raise e, w).
Proof. exact (run_op_unrenderable (OrderStatus symbol order_id) w e). Qed.

Lemma place_market_order_unrenderable (symbol side quantity : pyval) (w : world) (e : exn) :
  entry_raises (Market symbol side quantity) = Some e ->
  place_market_order net self symbol side quantity w = (Raise e, w).
Proof. exact (run_op_unrenderable (Market symbol side quantity) w e). Qed.

Lemma run_op_calls (op : facade_op) (w : world) :
  calls (snd (run_op net self op w)) = calls w ++ calls_made op
  /\ stdin (snd (run_op net self op w)) = stdin w.
Proof.
  unfold calls_made. destruct (entry_raises op) as [e|] eqn:E.
  - rewrite (run_op_unrenderable op w e E). cbn. rewrite app_nil_r. split; reflexivity.
  - destruct (run_op_spec op w E) as (_ & Hc & Hs & _). split; assumption.
Qed.

End FacadeFacts.

(** * The claims *)

(** ** The facade *)

Section FacadeClaims.

Context {B : Builtins}.
Variable net : Adapter.
Variable self : BasicBot.




(** C8.  A limit order and a stop-limit order go to the adapter with
    [timeInForce='GTC'], a constant of the facade; the stop-limit order
    passes the caller's stop price as [stopPrice] and the caller's limit
    price as [price].  These are the only calls the two operations make
    (none at all when the entry line cannot be rendered). *)
Theorem limit_orders_are_GTC
    (symbol side quantity price stop_price limit_price : pyval) (w : world) :
  calls (snd (place_limit_order net self symbol side quantity price w))
  = calls w ++
    match entry_raises (Limit symbol side quantity price) with
    | None =>
        [futures_create_order
           [("symbol", symbol); ("side", side); ("type", PStr "LIMIT");
            ("timeInForce", PStr "GTC"); ("quantity", quantity); ("price", price)]]
    | Some _ => []
    end
  /\ calls (snd (place_stop_limit_order net self symbol side quantity stop_price limit_price w))
     = calls w ++
       match entry_raises (StopLimit symbol side quantity stop_price limit_price) with
       | None =>
           [futures_create_order
              [("symbol", symbol); ("side", side); ("type", PStr "STOP");
               ("timeInForce", PStr "GTC"); ("quantity", quantity);
               ("price", limit_price); ("stopPrice", stop_price)]]
       | Some _ => []
       end.
Proof.
  split.
  - exact (proj1 (run_op_calls net self (Limit symbol side quantity price) w)).
  - exact (proj1 (run_op_calls net self
                    (StopLimit symbol side quantity stop_price limit_price) w)).
Qed.

(** C9, as amended.  The order-placing operations check nothing about their
    numbers: whenever the arguments can be rendered for the entry line, the
    adapter is called, with exactly those values.  They can be rendered
    whenever symbol and side are [str]s and the numbers are floats: zero,
    negative, infinite or not a number. *)
Theorem orders_are_not_validated_locally
    (symbol side quantity price stop_price limit_price : pyval) (w : world) :
  let market :=
    futures_create_order
      [("symbol", symbol); ("side", side); ("type", PStr "MARKET"); ("quantity", quantity)] in
  let limit :=
    futures_create_order
      [("symbol", symbol); ("side", side); ("type", PStr "LIMIT");
       ("timeInForce", PStr "GTC"); ("quantity", quantity); ("price", price)] in
  let stop :=
    futures_create_order
      [("symbol", symbol); ("side", side); ("type", PStr "STOP");
       ("timeInForce", PStr "GTC"); ("quantity", quantity);
       ("price", limit_price); ("stopPrice", stop_price)] in
  (entry_raises (Market symbol side quantity) = None ->
   In (Called market (respond net (calls w) market))
      (trace (snd (place_market_order net self symbol side quantity w))))
  /\ (entry_raises (Limit symbol side quantity price) = None ->
      In (Called limit (respond net (calls w) limit))
         (trace (snd (place_limit_order net self symbol side quantity price w))))
  /\ (entry_raises (StopLimit symbol side quantity stop_price limit_price) = None ->
      In (Called stop (respond net (calls w) stop))
         (trace (snd (place_stop_limit_order net self symbol side quantity
                        stop_price limit_price w))))
  /\ (forall (s sd : string) (q p sp lp : float),
        entry_raises (Market (PStr s) (PStr sd) (PFloat q)) = None
        /\ entry_raises (Limit (PStr s) (PStr sd) (PFloat q) (PFloat p)) = None
        /\ entry_raises (StopLimit (PStr s) (PStr sd) (PFloat q) (PFloat sp) (PFloat lp))
           = None).
Proof.
  cbv zeta. repeat split.
  - intros H.
    exact (proj2 (proj2 (proj2 (run_op_spec net self (Market symbol side quantity) w H)))).
  - intros H.
    exact (proj2 (proj2 (proj2 (run_op_spec net self (Limit symbol side quantity price) w
                                  H)))).
  - intros H.
    exact (proj2 (proj2 (proj2 (run_op_spec net self
                                  (StopLimit symbol side quantity stop_price limit_price) w
                                  H)))).
Qed.

End FacadeClaims.




(** C9, as stated, fails: a quantity that cannot be rendered never reaches
    the adapter; the entry log of [place_market_order] raises first. *)
Lemma unrenderable_quantity_is_never_sent :
  place_market_order (B := sample_builtins) sample_exchange sample_bot
    (PStr "BTCUSDT") (PStr "BUY") (PInt huge) (start [])
  = (Raise format_error, start []).
Proof.
  apply place_market_order_unrenderable, quantity_unrenderable.
  exact huge_is_past_the_limit.
Qed.




Lemma orders_are_not_validated_locally_witness :
  In (Called (futures_create_order
                [("symbol", PStr "BTCUSDT"); ("side", PStr "SELL"); ("type", PStr "MARKET");
                 ("quantity", PFloat (-1))])
        (inl (PDict [("serverTime", PInt 1700000000000); ("orderId", PInt 1)])))
     (trace (snd (place_market_order (B := sample_builtins) sample_exchange sample_bot
                    (PStr "BTCUSDT") (PStr "SELL") (PFloat (-1)) (start [])))).
Proof.
  exact (proj1 (@orders_are_not_validated_locally sample_builtins sample_exchange sample_bot
                  (PStr "BTCUSDT") (PStr "SELL") (PFloat (-1)) (PInt 0)
                  (PFloat 0) (PInt (-5)) (start []))
           eq_refl).
Defined.

(** ** Construction of the bot *)

Ltac unfold_init :=
  unfold BasicBot_init, _verify_connection, bind, try_except, do_call,
    logger_info, logger_error, formatted, emit, sys_exit, orelse, except_.

Ltac split_cases :=
  repeat match goal with
    | |- context [respond ?n ?h ?c] =>
        let r := fresh "r" in
        generalize (respond n h c); intros r; destruct r as [?|[]]; cbn
    | |- context [py_get ?v ?k] => destruct v; unfold py_get, ret, raise; cbn
    | |- context [str_raises ?v] =>
        let e := fresh "e" in
        let E := fresh "E" in
        let He := fresh "He" in
        destruct (str_raises v) as [e|] eqn:E;
        [pose proof (str_raises_error v e E) as He; destruct e; try discriminate He|];
        clear E; cbn
    | |- context [match assoc ?k ?d with Some _ => _ | None => _ end] =>
        destruct (assoc k d); cbn
    | |- context [match ?c with Some _ => _ | None => _ end] => is_var c; destruct c; cbn
    | |- context [Z.eqb ?a ?b] => destruct (Z.eqb a b); cbn
    end.

Ltac norm_calls :=
  rewrite ?calls_of_app; cbn [calls_of]; rewrite ?app_nil_r, <- ?app_assoc; cbn [app].

Section Construction.

Context {B : Builtins}.
Variable net : Adapter.

(** Every way the constructor can end.  [evs] is what it adds to the trace. *)
Lemma BasicBot_init_spec (k s : string) (t : bool) (w : world) :
  let r := BasicBot_init net k s t w in
  exists evs,
    trace (snd r) = trace w ++ evs
    /\ stdin (snd r) = stdin w
    /\ (existsb raised_error evs = true -> fst r = Raise (SystemExit 1))
    /\ match fst r with
       | Ret _ => existsb raised_error evs = false
       | Raise e =>
           e = SystemExit 1
           \/ (is_Exception e = false /\ exists c, In (Called c (inr e)) evs)
       | OutOfFuel => False
       end.
Proof.
  cbv zeta. unfold_init. destruct t; cbn [stdin trace fst snd].
  all: split_cases; unfold ret, raise; cbn.
  all: rewrite <- ?app_assoc; cbn [app].
  all: eexists; split; [reflexivity|]; cbn.
  all: repeat split; try discriminate; try reflexivity; auto.
  all: try (right; split; [reflexivity|eexists; eauto 12]).
Qed.

Lemma BasicBot_init_raises_no_Exception (k s : string) (t : bool) (w : world) :
  match fst (BasicBot_init net k s t w) with
  | Ret _ => True
  | Raise e => is_Exception e = false
  | OutOfFuel => False
  end.
Proof.
  destruct (BasicBot_init_spec k s t w) as (evs & _ & _ & _ & H).
  destruct (fst (BasicBot_init net k s t w)) as [b|e|]; auto.
  destruct H as [->|[H _]]; [reflexivity|exact H].
Qed.

(** The [try] around the construction in [main] behaves as its body. *)
Lemma init_failure_never_runs (k s : string) (t : bool) (w : world) :
  try_except (bot <- BasicBot_init net k s t ;; ret (Some bot)) init_failure w
  = (bot <- BasicBot_init net k s t ;; ret (Some bot)) w.
Proof.
  pose proof (BasicBot_init_raises_no_Exception k s t w) as H.
  unfold try_except, bind, init_failure, except_, ret.
  destruct (BasicBot_init net k s t w) as [[b|e|] w']; cbn in *; try reflexivity.
  rewrite H. reflexivity.
Qed.

Lemma main_runs_constructor (fuel : nat) (k s : string) (w : world) :
  keys_not_set k s = false ->
  main net fuel k s w = (bot <- BasicBot_init net k s true ;; main_loop net fuel bot) w.
Proof.
  intros Hk. unfold main. rewrite Hk.
  unfold bind at 1. rewrite init_failure_never_runs.
  unfold bind, ret. destruct (BasicBot_init net k s true w) as [[b|e|] w']; reflexivity.
Qed.

(** The constructor up to the log line of the server time, which either is
    rendered or ends the construction. *)
Lemma BasicBot_init_server_time
    (k s : string) (t : bool) (w : world) (cp : pyval) (d : list (string * pyval)) (e : exn) :
  respond net (calls w) (Client_init k s t) = inl cp ->
  respond net (calls w ++ [Client_init k s t]) futures_time = inl (PDict d) ->
  str_raises (match assoc "serverTime" d with Some x => x | None => PNone end) = Some e ->
  BasicBot_init net k s t w =
  (Raise (SystemExit 1),
   {| stdin := stdin w;
      trace := trace w ++
        [Called (Client_init k s t) (inl cp);
         Logged INFO [Lit "Bot initialized successfully. Testnet: "; Fmt (PBool t)];
         Called futures_time (inl (PDict d));
         Logged ERROR [Lit "Error during bot initialization: "; Lit (str_exn e)]] |}).
Proof.
  intros H1 H2 H3. pose proof (str_raises_error _ _ H3) as He.
  unfold_init. unfold py_get, ret, raise, calls in *.
  destruct t; cbn [stdin trace fst snd]; rewrite H1; cbn; norm_calls;
    rewrite H2; cbn; rewrite H3; destruct e; try discriminate He; cbn;
    rewrite <- ?app_assoc; reflexivity.
Qed.

(** C3.  When the account-info check of the constructor is refused with
    code -2015, the constructor logs the two messages about futures
    permission, logs the error twice more on the way out, and ends in
    [sys.exit(1)]: it hands no bot to its caller.  [main] then ends the
    same way, with exit status 1, having called nothing but the three
    construction calls and having read nothing from standard input.  (The
    check is made only when the server time is rendered for the log line
    that precedes it; when that raises, the constructor has ended in
    [sys.exit(1)] before the check.) *)
Theorem permission_denied_is_fatal
    (k s : string) (t : bool) (w : world) (cp : pyval) (d : list (string * pyval))
    (text : string) (fuel : nat) :
  respond net (calls w) (Client_init k s t) = inl cp ->
  respond net (calls w ++ [Client_init k s t]) futures_time = inl (PDict d) ->
  respond net (calls w ++ [Client_init k s t; futures_time]) futures_account
    = inr (BinanceAPIException (Some (-2015)%Z) text) ->
  let server_time := match assoc "serverTime" d with Some x => x | None => PNone end in
  let w' :=
    {| stdin := stdin w;
       trace := trace w ++
         [Called (Client_init k s t) (inl cp);
          Logged INFO [Lit "Bot initialized successfully. Testnet: "; Fmt (PBool t)];
          Called futures_time (inl (PDict d));
          Logged INFO [Lit "Connection verified. Server time: "; Fmt server_time];
          Called futures_account (inr (BinanceAPIException (Some (-2015)%Z) text));
          Logged ERROR [Lit "API key doesn't have futures permissions or IP not whitelisted"];
          Logged ERROR [Lit "Please create a new API key with 'Enable Futures' checked"];
          Logged ERROR [Lit "Error verifying connection: "; Lit text];
          Logged ERROR [Lit "Error during bot initialization: "; Lit text]] |} in
  match str_raises server_time with
  | None =>
      BasicBot_init net k s t w = (Raise (SystemExit 1), w')
      /\ (t = true -> keys_not_set k s = false ->
          main net fuel k s w = (Raise (SystemExit 1), w')
          /\ exit_status (fst (main net fuel k s w)) = Some 1%Z)
  | Some e =>
      BasicBot_init net k s t w =
      (Raise (SystemExit 1),
       {| stdin := stdin w;
          trace := trace w ++
            [Called (Client_init k s t) (inl cp);
             Logged INFO [Lit "Bot initialized successfully. Testnet: "; Fmt (PBool t)];
             Called futures_time (inl (PDict d));
             Logged ERROR [Lit "Error during bot initialization: "; Lit (str_exn e)]] |})
  end.
Proof.
  intros H1 H2 H3. cbv zeta.
  destruct (str_raises (match assoc "serverTime" d with Some x => x | None => PNone end))
    as [e|] eqn:Hst.
  { exact (BasicBot_init_server_time k s t w cp d e H1 H2 Hst). }
  assert (Hinit : BasicBot_init net k s t w = (Raise (SystemExit 1),
    {| stdin := stdin w;
       trace := trace w ++
         [Called (Client_init k s t) (inl cp);
          Logged INFO [Lit "Bot initialized successfully. Testnet: "; Fmt (PBool t)];
          Called futures_time (inl (PDict d));
          Logged INFO [Lit "Connection verified. Server time: ";
                       Fmt (match assoc "serverTime" d with Some x => x | None => PNone end)];
          Called futures_account (inr (BinanceAPIException (Some (-2015)%Z) text));
          Logged ERROR [Lit "API key doesn't have futures permissions or IP not whitelisted"];
          Logged ERROR [Lit "Please create a new API key with 'Enable Futures' checked"];
          Logged ERROR [Lit "Error verifying connection: "; Lit text];
          Logged ERROR [Lit "Error during bot initialization: "; Lit text]] |})).
  { unfold_init. unfold py_get, ret, raise, calls in *.
    destruct t; cbn [stdin trace fst snd]; rewrite H1; cbn; norm_calls;
      rewrite H2; cbn; rewrite Hst; cbn; norm_calls; rewrite H3; cbn;
      rewrite <- ?app_assoc; reflexivity. }
  split; [exact Hinit|].
  intros -> Hk. rewrite (main_runs_constructor fuel k s w Hk).
  unfold bind. rewrite Hinit. split; reflexivity.
Qed.

(** X15.  The two permission messages belong to code -2015 alone: an account-info
    check refused with any other code is fatal in the same way, and logs
    neither of them.  (As for C3, the check is made only when the server time
    is rendered.) *)
Lemma other_refusal_logs_no_permission_message
    (k s : string) (t : bool) (w : world) (cp : pyval) (d : list (string * pyval))
    (code : option Z) (text : string) :
  respond net (calls w) (Client_init k s t) = inl cp ->
  respond net (calls w ++ [Client_init k s t]) futures_time = inl (PDict d) ->
  respond net (calls w ++ [Client_init k s t; futures_time]) futures_account
    = inr (BinanceAPIException code text) ->
  code <> Some (-2015)%Z ->
  BasicBot_init net k s t w =
  (Raise (SystemExit 1),
   {| stdin := stdin w;
      trace := trace w ++
        match str_raises (match assoc "serverTime" d with Some x => x | None => PNone end) with
        | None =>
            [Called (Client_init k s t) (inl cp);
             Logged INFO [Lit "Bot initialized successfully. Testnet: "; Fmt (PBool t)];
             Called futures_time (inl (PDict d));
             Logged INFO [Lit "Connection verified. Server time: ";
                          Fmt (match assoc "serverTime" d with Some x => x | None => PNone end)];
             Called futures_account (inr (BinanceAPIException code text));
             Logged ERROR [Lit "Error verifying connection: "; Lit text];
             Logged ERROR [Lit "Error during bot initialization: "; Lit text]]
        | Some e =>
            [Called (Client_init k s t) (inl cp);
             Logged INFO [Lit "Bot initialized successfully. Testnet: "; Fmt (PBool t)];
             Called futures_time (inl (PDict d));
             Logged ERROR [Lit "Error during bot initialization: "; Lit (str_exn e)]]
        end |}).
Proof.
  intros H1 H2 H3 Hcode.
  destruct (str_raises (match assoc "serverTime" d with Some x => x | None => PNone end))
    as [e|] eqn:Hst.
  { exact (BasicBot_init_server_time k s t w cp d e H1 H2 Hst). }
  assert (Hno : code_is (BinanceAPIException code text) (-2015) = false).
  { destruct code as [c|]; [|reflexivity]. cbn. apply Z.eqb_neq. congruence. }
  unfold_init. unfold py_get, ret, raise, calls in *.
  destruct t; cbn [stdin trace fst snd]; rewrite H1; cbn; norm_calls;
    rewrite H2; cbn; rewrite Hst; cbn; norm_calls; rewrite H3; cbn -[code_is];
    rewrite Hno; cbn; rewrite <- ?app_assoc; reflexivity.
Qed.


End Construction.

(** ** The shell *)

Section ShellFacts.

Context {B : Builtins}.
Variable net : Adapter.

Lemma bind_ret {A C} (a : A) (k : A -> M C) (w : world) : (x <- ret a ;; k x) w = k a w.
Proof. reflexivity. Qed.

Lemma calls_menu (t : list event) (line : option string) :
  calls_of (t ++ menu_text ++ [Input "Enter your choice (1-7): " line]) = calls_of t.
Proof. rewrite calls_of_app. cbn. apply app_nil_r. Qed.

Lemma print_menu_line (w : world) (choice : string) (lines : list string) :
  stdin w = choice :: lines ->
  print_menu w =
  (Ret choice,
   {| stdin := lines;
      trace := trace w ++ menu_text ++ [Input "Enter your choice (1-7): " (Some choice)] |}).
Proof.
  intros Hin. unfold print_menu, bind, print, formatted, emit, input. cbn [stdin trace].
  cbn [message_raises frag_raises]. cbn [stdin trace].
  rewrite Hin. unfold menu_text. rewrite <- ?app_assoc. reflexivity.
Qed.

Lemma print_menu_eof (w : world) :
  stdin w = [] ->
  print_menu w =
  (Raise (EOFError "EOF when reading a line"),
   {| stdin := [];
      trace := trace w ++ menu_text ++ [Input "Enter your choice (1-7): " None] |}).
Proof.
  intros Hin. unfold print_menu, bind, print, formatted, emit, input. cbn [stdin trace].
  cbn [message_raises frag_raises]. cbn [stdin trace].
  rewrite Hin. unfold menu_text. rewrite <- ?app_assoc. reflexivity.
Qed.

Lemma get_user_input_step (f : nat) (p : string) (ty : input_type) (w : world) :
  get_user_input (S f) p ty w =
  match stdin w with
  | [] =>
      get_user_input f p ty
        {| stdin := [];
           trace := trace w ++
             [Input p None;
              Printed [Lit "An error occurred: "; Lit "EOF when reading a line"]] |}
  | l :: rest =>
      match accepts ty l with
      | Some v => (Ret v, {| stdin := rest; trace := trace w ++ [Input p (Some l)] |})
      | None =>
          get_user_input f p ty
            {| stdin := rest;
               trace := trace w ++ [Input p (Some l); Printed (invalid_input ty)] |}
      end
  end.
Proof.
  cbn [get_user_input].
  unfold bind, try_except, input, coerce, accepts, print, formatted, emit, ret, raise,
    orelse, except_.
  destruct (stdin w) as [|l rest]; cbn.
  - rewrite <- app_assoc. reflexivity.
  - destruct ty; cbn.
    + reflexivity.
    + destruct (float_of_str l); cbn; [reflexivity|]. rewrite <- app_assoc. reflexivity.
    + destruct (int_of_str l); cbn; [reflexivity|]. rewrite <- app_assoc. reflexivity.
Qed.

Lemma get_user_input_spec (f : nat) (p : string) (ty : input_type) (w : world) :
  let r := get_user_input f p ty w in
  calls (snd r) = calls w
  /\ match fst r with
     | Ret v => read_field ty (stdin w) = Some (v, stdin (snd r))
     | Raise _ => False
     | OutOfFuel => True
     end.
Proof.
  revert w. induction f as [|f IH]; intros w; cbv zeta.
  - cbn. auto.
  - rewrite get_user_input_step.
    destruct (stdin w) as [|l rest] eqn:Hin.
    + destruct (IH {| stdin := []; trace := trace w ++ [Input p None;
              Printed [Lit "An error occurred: "; Lit "EOF when reading a line"]] |})
        as [Hc Hr].
      split.
      * rewrite Hc. unfold calls; cbn. rewrite calls_of_app. cbn. apply app_nil_r.
      * destruct (fst (get_user_input f p ty _)); auto.
    + cbn [read_field]. destruct (accepts ty l) as [v|] eqn:Hacc.
      * cbn. split; [|reflexivity].
        unfold calls; cbn. rewrite calls_of_app. cbn. apply app_nil_r.
      * destruct (IH {| stdin := rest;
                        trace := trace w ++ [Input p (Some l); Printed (invalid_input ty)] |})
          as [Hc Hr].
        split; [|exact Hr].
        rewrite Hc. unfold calls; cbn. rewrite calls_of_app. cbn. apply app_nil_r.
Qed.

Lemma read_field_sound (ty : input_type) (lines rest : list string) (v : pyval) :
  read_field ty lines = Some (v, rest) ->
  exists bad good,
    lines = bad ++ good :: rest
    /\ Forall (fun s => accepts ty s = None) bad
    /\ accepts ty good = Some v.
Proof.
  induction lines as [|l more IH]; cbn; [discriminate|].
  destruct (accepts ty l) as [x|] eqn:Hacc.
  - intros [= -> ->]. exists [], l. repeat split; auto.
  - intros H. destruct (IH H) as (bad & good & -> & Hbad & Hgood).
    exists (l :: bad), good. repeat split; auto.
Qed.

Lemma read_field_str (lines rest : list string) (v : pyval) :
  read_field T_str lines = Some (v, rest) -> exists s, v = PStr s /\ lines = s :: rest.
Proof.
  destruct lines as [|l more]; cbn; [discriminate|].
  intros [= <- <-]. eauto.
Qed.

Lemma read_field_str_eq (lines rest : list string) (v : pyval) :
  read_field T_str lines = Some (v, rest) -> exists s, v = PStr s.
Proof. intros H. destruct (read_field_str _ _ _ H) as (s & -> & _). eauto. Qed.

Lemma read_field_length (ty : input_type) (lines rest : list string) (v : pyval) :
  read_field ty lines = Some (v, rest) -> (List.length rest < List.length lines)%nat.
Proof.
  intros H. destruct (read_field_sound ty lines rest v H) as (bad & good & -> & _).
  rewrite length_app. cbn. lia.
Qed.

Lemma read_fields_incl (tys : list input_type) (lines rest : list string)
    (vals : list pyval) :
  read_fields tys lines = Some (vals, rest) -> incl rest lines.
Proof.
  revert lines vals. induction tys as [|ty tys IH]; intros lines vals; cbn.
  - intros [= _ ->]. apply incl_refl.
  - destruct (read_field ty lines) as [[v more]|] eqn:Hf; [|discriminate].
    destruct (read_fields tys more) as [[vs rest']|] eqn:Hfs; [|discriminate].
    intros [= _ ->].
    destruct (read_field_sound ty lines more v Hf) as (bad & good & -> & _).
    intros x Hx. apply in_or_app. right. right. exact (IH more vs Hfs x Hx).
Qed.

(** Enough fuel gives the field. *)
Lemma get_user_input_returns (p : string) (ty : input_type) (w : world)
    (v : pyval) (rest : list string) :
  read_field ty (stdin w) = Some (v, rest) ->
  forall f, (List.length (stdin w) <= f)%nat ->
    fst (get_user_input f p ty w) = Ret v /\ stdin (snd (get_user_input f p ty w)) = rest.
Proof.
  destruct w as [lines tr]. cbn [stdin]. revert tr.
  induction lines as [|l more IH]; intros tr; cbn [read_field]; [discriminate|].
  intros H f Hf. destruct f as [|f]; [cbn in Hf; lia|].
  rewrite get_user_input_step. cbn [stdin trace].
  destruct (accepts ty l) as [x|].
  - injection H as -> ->. split; reflexivity.
  - apply IH; [exact H|]. cbn in Hf. lia.
Qed.

(** At end of input the loop goes round for ever. *)
Lemma get_user_input_eof (f : nat) (p : string) (ty : input_type) (w : world) :
  stdin w = [] -> fst (get_user_input f p ty w) = OutOfFuel.
Proof.
  revert w. induction f as [|f IH]; intros w Hin; [reflexivity|].
  rewrite get_user_input_step, Hin. apply IH. reflexivity.
Qed.

Lemma get_user_input_out_of_fuel (f : nat) (p : string) (ty : input_type) (w : world) :
  fst (get_user_input f p ty w) = OutOfFuel ->
  read_field ty (stdin w) = None \/ (f < List.length (stdin w))%nat.
Proof.
  intros Ho. destruct (read_field ty (stdin w)) as [[v rest]|] eqn:Hr; [|left; reflexivity].
  right. destruct (Nat.lt_ge_cases f (List.length (stdin w))) as [Hlt|Hge]; [exact Hlt|].
  destruct (get_user_input_returns p ty w v rest Hr f Hge) as [Hret _].
  rewrite Hret in Ho. discriminate.
Qed.

Lemma bind_get_user_input_cases {A} (f : nat) (p : string) (ty : input_type)
    (k : pyval -> M A) (w : world) :
  (exists v w1,
      read_field ty (stdin w) = Some (v, stdin w1)
      /\ calls w1 = calls w
      /\ (List.length (stdin w1) < List.length (stdin w))%nat
      /\ (x <- get_user_input f p ty ;; k x) w = k v w1)
  \/ (fst ((x <- get_user_input f p ty ;; k x) w) = OutOfFuel
      /\ calls (snd ((x <- get_user_input f p ty ;; k x) w)) = calls w
      /\ (read_field ty (stdin w) = None \/ (f < List.length (stdin w))%nat)).
Proof.
  destruct (get_user_input_spec f p ty w) as [Hc Hr].
  pose proof (get_user_input_out_of_fuel f p ty w) as Ho.
  unfold bind.
  destruct (get_user_input f p ty w) as [[v|e|] w1]; cbn in *.
  - left. exists v, w1. repeat split; auto. eapply read_field_length; eauto.
  - contradiction.
  - right. auto.
Qed.

(** An operation of the facade followed by the printing of its result, as
    every branch of the menu does. *)
Lemma op_then_print_cases (bot : BasicBot) (op : facade_op) (m : pyval -> message)
    (w : world) :
  (forall v, message_raises (m v) = dumps_raises v) ->
  let r := (result <- run_op net bot op ;; print (m result) ;; ret Continue) w in
  let a := respond net (calls w) (adapter_call op) in
  fst r = after_operation op a
  /\ calls (snd r) = calls w ++ calls_made op
  /\ stdin (snd r) = stdin w
  /\ (entry_raises op = None -> In (Called (adapter_call op) a) (trace (snd r)))
  /\ (forall v, entry_raises op = None -> facade_outcome op a = Ret v ->
        dumps_raises v = None ->
        exists pre, trace (snd r) = pre ++ [Printed (m v)]).
Proof.
  intros Hm. cbv zeta. unfold after_operation, calls_made.
  destruct (entry_raises op) as [e|] eqn:Hentry.
  { unfold bind. rewrite (run_op_unrenderable net bot op w e Hentry). cbn.
    rewrite app_nil_r. repeat split; discriminate. }
  destruct (run_op_spec net bot op w Hentry) as (Ho & Hc & Hin & Hcalled).
  unfold bind, print, formatted.
  destruct (run_op net bot op w) as [[v|e|] w1]; cbn [fst snd] in *; rewrite <- Ho.
  - rewrite Hm. destruct (dumps_raises v) as [e|] eqn:Hd; cbn.
    + repeat split; auto. intros v' _ [= <-]. congruence.
    + repeat split; auto.
      * unfold calls in *. cbn. rewrite calls_of_app, Hc. cbn. apply app_nil_r.
      * intros _. apply in_or_app. left. exact (Hcalled).
      * intros v' _ [= <-] _. eexists. reflexivity.
  - repeat split; auto. discriminate.
  - repeat split; auto. discriminate.
Qed.

Lemma result_message_raises (label : string) (v : pyval) :
  message_raises [Lit label; Dumps v] = dumps_raises v.
Proof. cbn. destruct (dumps_raises v); reflexivity. Qed.

Ltac use_fields :=
  repeat (cbn [read_fields];
          match goal with
          | R : read_field ?ty ?l = Some _ |- context [read_field ?ty ?l] => rewrite R
          end);
  cbn [read_fields].

Ltac read_next Hr Hcalls v R :=
  match type of Hr with
  | context [bind (get_user_input ?f ?p ?ty) ?k ?w] =>
      let w1 := fresh "w" in
      let C := fresh "C" in
      let E := fresh "E" in
      let L := fresh "L" in
      let O := fresh "O" in
      let N := fresh "N" in
      destruct (bind_get_user_input_cases f p ty k w) as [(v & w1 & R & C & L & E)|(O & C & N)];
      [rewrite E in Hr; clear E; cbv beta in Hr;
       rewrite Hcalls in C; clear Hcalls; rename C into Hcalls
      |left; rewrite Hr; split; [exact O|];
       split; [rewrite C; exact Hcalls|];
       use_fields; destruct N as [N|N]; [left; rewrite N; reflexivity|right; lia]]
  end.

Ltac side_upper Hr R s :=
  destruct (read_field_str_eq _ _ _ R) as [s ->];
  cbn [py_upper] in Hr; rewrite bind_ret in Hr.

Ltac operation Hr bot op m :=
  match type of Hr with
  | _ = ?rhs =>
      match rhs with
      | bind _ _ ?w =>
          change rhs with ((result <- run_op net bot op ;; print (m result) ;; ret Continue) w)
            in Hr;
          let Ho := fresh "Ho" in
          let Hc := fresh "Hc" in
          let Hs := fresh "Hs" in
          let Hi := fresh "Hi" in
          let Hp := fresh "Hp" in
          destruct (op_then_print_cases bot op m w (result_message_raises _))
            as (Ho & Hc & Hs & Hi & Hp);
          rewrite <- Hr in Ho, Hc, Hs, Hi, Hp
      end
  end.

Ltac dispatched vals op Hcalls Ho Hc Hs Hi Hp :=
  right; exists vals, op; use_fields;
  rewrite Hcalls in Hp, Hi;
  rewrite Hs, Hc, Ho, Hcalls; repeat split; [exact Hi|exact Hp].

(** Every way one pass through the body of the menu loop can go. *)
Lemma loop_body_cases (f : nat) (bot : BasicBot) (w : world) :
  let r := loop_body net f bot w in
  match stdin w with
  | [] =>
      r = (Raise (EOFError "EOF when reading a line"),
           {| stdin := [];
              trace := trace w ++ menu_text ++ [Input "Enter your choice (1-7): " None] |})
  | choice :: lines =>
      if String.eqb choice "7" then
        fst r = Ret Break /\ stdin (snd r) = lines /\ calls (snd r) = calls w
      else
        match fields_of choice with
        | None => fst r = Ret Continue /\ stdin (snd r) = lines /\ calls (snd r) = calls w
        | Some tys =>
            (fst r = OutOfFuel
             /\ calls (snd r) = calls w
             /\ (read_fields tys lines = None \/ (f < List.length lines)%nat))
            \/ exists vals op,
                 read_fields tys lines = Some (vals, stdin (snd r))
                 /\ dispatch choice vals = Some op
                 /\ calls (snd r) = calls w ++ calls_made op
                 /\ fst r = after_operation op (respond net (calls w) (adapter_call op))
                 /\ (entry_raises op = None ->
                     In (Called (adapter_call op) (respond net (calls w) (adapter_call op)))
                        (trace (snd r)))
                 /\ (forall v,
                      entry_raises op = None ->
                      facade_outcome op (respond net (calls w) (adapter_call op)) = Ret v ->
                      dumps_raises v = None ->
                      exists pre,
                        trace (snd r)
                        = pre ++ [Printed [Lit (nl ++ result_label choice)%string;
                                           Dumps v]])
        end
  end.
Proof.
  cbv zeta.
  destruct (stdin w) as [|choice lines] eqn:Hin.
  { unfold loop_body. unfold bind at 1. rewrite (print_menu_eof w Hin). reflexivity. }
  set (r := loop_body net f bot w).
  assert (Hr : r = loop_body net f bot w) by reflexivity. clearbody r.
  unfold loop_body in Hr. unfold bind at 1 in Hr.
  rewrite (print_menu_line w choice lines Hin) in Hr.
  set (w0 := {| stdin := lines; trace := _ |}) in Hr.
  assert (Hcalls : calls w0 = calls w) by apply calls_menu.
  assert (Hl : stdin w0 = lines) by reflexivity.
  clearbody w0. subst lines.
  destruct (String.eqb choice "7") eqn:E7.
  { apply String.eqb_eq in E7. subst choice. cbn in Hr. subst r. cbn.
    repeat split. unfold calls in *. cbn. rewrite !calls_of_app. cbn.
    rewrite !app_nil_r. exact Hcalls. }
  unfold fields_of.
  destruct (String.eqb choice "1") eqn:E1.
  { apply String.eqb_eq in E1. subst choice.
    read_next Hr Hcalls symbol R1. read_next Hr Hcalls side0 R2. side_upper Hr R2 side.
    read_next Hr Hcalls quantity R3.
    operation Hr bot (Market symbol (PStr (str_upper side)) quantity)
      (fun result => [Lit (nl ++ "Result: ")%string; Dumps result]).
    dispatched [symbol; PStr side; quantity] (Market symbol (PStr (str_upper side)) quantity)
      Hcalls Ho Hc Hs Hi Hp. }
  destruct (String.eqb choice "2") eqn:E2.
  { apply String.eqb_eq in E2. subst choice.
    read_next Hr Hcalls symbol R1. read_next Hr Hcalls side0 R2. side_upper Hr R2 side.
    read_next Hr Hcalls quantity R3. read_next Hr Hcalls price R4.
    operation Hr bot (Limit symbol (PStr (str_upper side)) quantity price)
      (fun result => [Lit (nl ++ "Result: ")%string; Dumps result]).
    dispatched [symbol; PStr side; quantity; price]
      (Limit symbol (PStr (str_upper side)) quantity price) Hcalls Ho Hc Hs Hi Hp. }
  destruct (String.eqb choice "3") eqn:E3.
  { apply String.eqb_eq in E3. subst choice.
    read_next Hr Hcalls symbol R1. read_next Hr Hcalls side0 R2. side_upper Hr R2 side.
    read_next Hr Hcalls quantity R3. read_next Hr Hcalls stop_price R4.
    read_next Hr Hcalls limit_price R5.
    operation Hr bot (StopLimit symbol (PStr (str_upper side)) quantity stop_price limit_price)
      (fun result => [Lit (nl ++ "Result: ")%string; Dumps result]).
    dispatched [symbol; PStr side; quantity; stop_price; limit_price]
      (StopLimit symbol (PStr (str_upper side)) quantity stop_price limit_price)
      Hcalls Ho Hc Hs Hi Hp. }
  destruct (String.eqb choice "4") eqn:E4.
  { apply String.eqb_eq in E4. subst choice.
    read_next Hr Hcalls symbol R1. read_next Hr Hcalls order_id R2.
    operation Hr bot (OrderStatus symbol order_id)
      (fun result => [Lit (nl ++ "Result: ")%string; Dumps result]).
    dispatched [symbol; order_id] (OrderStatus symbol order_id) Hcalls Ho Hc Hs Hi Hp. }
  destruct (String.eqb choice "5") eqn:E5.
  { apply String.eqb_eq in E5. subst choice.
    read_next Hr Hcalls symbol R1. read_next Hr Hcalls order_id R2.
    operation Hr bot (CancelOrder symbol order_id)
      (fun result => [Lit (nl ++ "Result: ")%string; Dumps result]).
    dispatched [symbol; order_id] (CancelOrder symbol order_id) Hcalls Ho Hc Hs Hi Hp. }
  destruct (String.eqb choice "6") eqn:E6.
  { apply String.eqb_eq in E6. subst choice.
    operation Hr bot AccountBalance
      (fun balance => [Lit (nl ++ "Account Balance: ")%string; Dumps balance]).
    dispatched (@nil pyval) AccountBalance Hcalls Ho Hc Hs Hi Hp. }
  subst r. unfold calls in *. cbn. repeat split.
  rewrite calls_of_app. cbn. rewrite app_nil_r. exact Hcalls.
Qed.

Lemma loop_body_calls (f : nat) (bot : BasicBot) (w : world) :
  let r := loop_body net f bot w in
  calls (snd r) = calls w
  \/ exists choice lines tys vals op,
       stdin w = choice :: lines
       /\ fields_of choice = Some tys
       /\ read_fields tys lines = Some (vals, stdin (snd r))
       /\ dispatch choice vals = Some op
       /\ calls (snd r) = calls w ++ [adapter_call op].
Proof.
  cbv zeta. pose proof (loop_body_cases f bot w) as H. cbv zeta in H.
  destruct (stdin w) as [|choice lines] eqn:Hin.
  { left. rewrite H. unfold calls. cbn. apply calls_menu. }
  destruct (String.eqb choice "7").
  { left. apply H. }
  destruct (fields_of choice) as [tys|] eqn:Hty.
  - destruct H as [(_ & Hc & _)|(vals & op & Hread & Hdisp & Hc & _)]; [left; exact Hc|].
    unfold calls_made in Hc. destruct (entry_raises op).
    + left. rewrite Hc. apply app_nil_r.
    + right. exists choice, lines, tys, vals, op. auto.
  - left. apply H.
Qed.

Lemma loop_body_exit (f : nat) (bot : BasicBot) (w : world) (rest : list string) :
  stdin w = "7" :: rest ->
  loop_body net f bot w =
  (Ret Break,
   {| stdin := rest;
      trace := trace w ++ menu_text ++
        [Input "Enter your choice (1-7): " (Some "7");
         Printed [Lit "Exiting bot..."];
         Logged INFO [Lit "Bot shutdown by user"]] |}).
Proof.
  intros Hin. unfold loop_body. unfold bind at 1.
  rewrite (print_menu_line w "7" rest Hin). cbn.
  rewrite <- !app_assoc. reflexivity.
Qed.

Lemma main_loop_exit (f : nat) (bot : BasicBot) (w : world) (rest : list string) :
  stdin w = "7" :: rest ->
  fst (main_loop net (S f) bot w) = Ret tt
  /\ stdin (snd (main_loop net (S f) bot w)) = rest
  /\ calls (snd (main_loop net (S f) bot w)) = calls w.
Proof.
  intros Hin. cbn [main_loop]. unfold bind, try_except.
  rewrite (loop_body_exit f bot w rest Hin). cbn.
  repeat split. unfold calls. cbn. rewrite calls_of_app. cbn. apply app_nil_r.
Qed.

(** C5.  At the menu, the lines "1", "BTCUSDT", "buy" (in any casing) and
    "0.01" make the shell call the adapter's create-order once, with
    [symbol='BTCUSDT'], [side='BUY'], [type='MARKET'] and
    [quantity=float('0.01')]; the four lines are consumed. *)
Theorem market_order_scenario
    (bot : BasicBot) (fuel : nat) (w : world) (rest : list string)
    (side : string) (q : float) :
  stdin w = "1" :: "BTCUSDT" :: side :: "0.01" :: rest ->
  In side ["buy"; "Buy"; "bUy"; "buY"; "BUy"; "BuY"; "bUY"; "BUY"] ->
  float_of_str "0.01" = Some q ->
  let order :=
    futures_create_order
      [("symbol", PStr "BTCUSDT"); ("side", PStr "BUY");
       ("type", PStr "MARKET"); ("quantity", PFloat q)] in
  let w' := snd (loop_body net (S fuel) bot w) in
  calls w' = calls w ++ [order]
  /\ In (Called order (respond net (calls w) order)) (trace w')
  /\ stdin w' = rest.
Proof.
  intros Hin Hside Hq. cbv zeta.
  assert (Hup : str_upper side = "BUY").
  { cbn in Hside.
    repeat (destruct Hside as [<-|Hside]; [reflexivity|]). contradiction. }
  set (r := loop_body net (S fuel) bot w).
  assert (Hr : r = loop_body net (S fuel) bot w) by reflexivity. clearbody r.
  unfold loop_body in Hr. unfold bind at 1 in Hr.
  rewrite (print_menu_line w _ _ Hin) in Hr. cbn [String.eqb Ascii.eqb Bool.eqb] in Hr.
  cbv iota in Hr.
  unfold bind at 1 in Hr. rewrite get_user_input_step in Hr. cbn [stdin trace accepts] in Hr.
  unfold bind at 1 in Hr. rewrite get_user_input_step in Hr. cbn [stdin trace accepts] in Hr.
  cbn [py_upper] in Hr. rewrite bind_ret, Hup in Hr.
  unfold bind at 1 in Hr. rewrite get_user_input_step in Hr. cbn [stdin trace accepts] in Hr.
  rewrite Hq in Hr. cbn [option_map] in Hr.
  assert (Hentry : entry_raises (Market (PStr "BTCUSDT") (PStr "BUY") (PFloat q)) = None)
    by reflexivity.
  match type of Hr with
  | _ = bind _ _ ?w3 =>
      assert (Hc3 : calls w3 = calls w)
        by (unfold calls; cbn [trace]; rewrite ?calls_of_app; cbn; rewrite ?app_nil_r;
            reflexivity)
  end.
  operation Hr bot (Market (PStr "BTCUSDT") (PStr "BUY") (PFloat q))
    (fun result => [Lit (nl ++ "Result: ")%string; Dumps result]).
  unfold calls_made in Hc. rewrite Hentry, Hc3 in Hc. specialize (Hi Hentry).
  rewrite Hc3 in Hi.
  split; [exact Hc|]. split; [exact Hi|exact Hs].
Qed.

(** C6, as amended.  When a credential still contains its placeholder text
    (the test of the source, which it logs as "API keys not set"), [main]
    ends in [sys.exit(1)]:
    exit status 1, no adapter call made (neither the client construction
    nor the connectivity check) and nothing read.  When the menu choice
    "7" is read, the loop ends and [main] returns: exit status 0. *)
Theorem exit_codes (k s : string) (fuel : nat) (w : world) :
  (keys_not_set k s = true ->
   let r := main net fuel k s w in
   fst r = Raise (SystemExit 1)
   /\ exit_status (fst r) = Some 1%Z
   /\ calls (snd r) = calls w
   /\ stdin (snd r) = stdin w)
  /\ (forall (bot : BasicBot) (w1 : world) (rest : list string),
        keys_not_set k s = false ->
        BasicBot_init net k s true w = (Ret bot, w1) ->
        stdin w = "7" :: rest ->
        exit_status (fst (main net (S fuel) k s w)) = Some 0%Z)
  /\ (forall (bot : BasicBot) (rest : list string),
        stdin w = "7" :: rest ->
        exit_status (fst (main_loop net (S fuel) bot w)) = Some 0%Z).
Proof.
  split; [|split].
  - intros Hk. cbv zeta. unfold main. rewrite Hk.
    unfold bind, print, logger_error, formatted, emit, sys_exit, raise. cbn.
    repeat split. unfold calls. cbn. rewrite ?calls_of_app. cbn.
    rewrite ?app_nil_r. reflexivity.
  - intros bot w1 rest Hk Hinit Hin.
    rewrite (main_runs_constructor net (S fuel) k s w Hk). unfold bind. rewrite Hinit.
    destruct (BasicBot_init_spec net k s true w) as (evs & _ & Hs & _).
    rewrite Hinit in Hs. cbn in Hs.
    assert (Hin1 : stdin w1 = "7" :: rest) by (rewrite Hs; exact Hin).
    destruct (main_loop_exit fuel bot w1 rest Hin1) as [-> _]. reflexivity.
  - intros bot rest Hin.
    destruct (main_loop_exit fuel bot w rest Hin) as [-> _]. reflexivity.
Qed.

Lemma accepts_None (ty : input_type) (s : string) :
  accepts ty s = None <->
  (ty = T_float /\ float_of_str s = None) \/ (ty = T_int /\ int_of_str s = None).
Proof.
  destruct ty; cbn.
  - split; [discriminate|]. intros [[H _]|[H _]]; discriminate.
  - destruct (float_of_str s); cbn; split; try discriminate; auto.
    intros [[_ H]|[H _]]; discriminate.
  - destruct (int_of_str s); cbn; split; try discriminate; auto.
    intros [[H _]|[_ H]]; discriminate.
Qed.

(** C7.  A line that the coercion of a numeric field rejects is consumed,
    answered with "Invalid input", and the same prompt is asked again;
    [get_user_input] makes no adapter call, raises nothing, and returns
    only the coercion of the first line its type accepts, every line before
    it having been rejected.  One pass of the menu loop makes an adapter
    call only when every field of the chosen operation has been read in
    this way, and the call is the one of that operation on those values.
    [read_field] is the first accepted line after rejected ones, and when
    there is one, enough fuel makes [get_user_input] return it. *)
Theorem coercion_failure_reprompts :
  (forall (f : nat) (p : string) (ty : input_type) (s : string)
          (rest : list string) (tr : list event),
      accepts ty s = None ->
      get_user_input (S f) p ty {| stdin := s :: rest; trace := tr |}
      = get_user_input f p ty
          {| stdin := rest;
             trace := tr ++ [Input p (Some s); Printed (invalid_input ty)] |})
  /\ (forall (f : nat) (p : string) (ty : input_type) (w : world),
        let r := get_user_input f p ty w in
        calls (snd r) = calls w
        /\ match fst r with
           | Ret v =>
               exists bad good,
                 stdin w = bad ++ good :: stdin (snd r)
                 /\ Forall (fun s => accepts ty s = None) bad
                 /\ accepts ty good = Some v
           | Raise _ => False
           | OutOfFuel => True
           end)
  /\ (forall (f : nat) (bot : BasicBot) (w : world),
        let r := loop_body net f bot w in
        calls (snd r) = calls w
        \/ exists choice lines tys vals op,
             stdin w = choice :: lines
             /\ fields_of choice = Some tys
             /\ read_fields tys lines = Some (vals, stdin (snd r))
             /\ dispatch choice vals = Some op
             /\ calls (snd r) = calls w ++ [adapter_call op])
  /\ (forall (ty : input_type) (lines rest : list string) (v : pyval),
        read_field ty lines = Some (v, rest) ->
        exists bad good,
          lines = bad ++ good :: rest
          /\ Forall (fun s => accepts ty s = None) bad
          /\ accepts ty good = Some v)
  /\ (forall (p : string) (ty : input_type) (w : world) (v : pyval) (rest : list string),
        read_field ty (stdin w) = Some (v, rest) ->
        forall f, (List.length (stdin w) <= f)%nat ->
          fst (get_user_input f p ty w) = Ret v
          /\ stdin (snd (get_user_input f p ty w)) = rest).
Proof.
  split; [|split; [|split; [|split]]].
  - intros f p ty s rest tr Hrej. rewrite get_user_input_step. cbn [stdin trace].
    rewrite Hrej. reflexivity.
  - intros f p ty w. cbv zeta.
    destruct (get_user_input_spec f p ty w) as [Hc Hr]. split; [exact Hc|].
    destruct (fst (get_user_input f p ty w)) as [v|e|]; auto.
    apply read_field_sound. exact Hr.
  - intros f bot w. apply loop_body_calls.
  - intros ty lines rest v. apply read_field_sound.
  - intros p ty w v rest. apply get_user_input_returns.
Qed.

End ShellFacts.

(** ** The statements above, on sample runs *)

(** C6, as stated, fails for credentials that are unset in the sense of
    being empty: they contain no placeholder text, so the test of [main]
    lets them through, the client is constructed and the connectivity check
    runs; with an exchange that answers, the exit status after "7" is 0. *)
Lemma empty_credentials_reach_the_network :
  keys_not_set EmptyString EmptyString = false
  /\ calls (snd (main (B := sample_builtins) sample_exchange 1 EmptyString EmptyString
                   (start ["7"])))
     = [Client_init EmptyString EmptyString true; futures_time; futures_account]
  /\ exit_status (fst (main (B := sample_builtins) sample_exchange 1 EmptyString EmptyString
                         (start ["7"])))
     = Some 0%Z.
Proof. vm_compute. repeat split. Qed.

(** Orders with a zero or a negative quantity or price go to the adapter like
    any other. *)
Example zero_and_negative_orders_reach_the_adapter :
  calls (snd (place_market_order (B := sample_builtins) sample_exchange sample_bot
                (PStr "BTCUSDT") (PStr "SELL") (PFloat 0) (start [])))
  = [futures_create_order
       [("symbol", PStr "BTCUSDT"); ("side", PStr "SELL"); ("type", PStr "MARKET");
        ("quantity", PFloat 0)]]
  /\ calls (snd (place_limit_order (B := sample_builtins) sample_exchange sample_bot
                   (PStr "BTCUSDT") (PStr "BUY") (PFloat (-1)) (PInt (-5)) (start [])))
     = [futures_create_order
          [("symbol", PStr "BTCUSDT"); ("side", PStr "BUY"); ("type", PStr "LIMIT");
           ("timeInForce", PStr "GTC"); ("quantity", PFloat (-1)); ("price", PInt (-5))]].
Proof. split; reflexivity. Qed.

Lemma permission_denied_is_fatal_witness :
  exit_status
    (fst (main (B := sample_builtins) sample_denied 3 "key" "secret" (start ["1"; "BTCUSDT"])))
  = Some 1%Z
  /\ calls (snd (main (B := sample_builtins) sample_denied 3 "key" "secret"
                   (start ["1"; "BTCUSDT"])))
     = [Client_init "key" "secret" true; futures_time; futures_account]
  /\ stdin (snd (main (B := sample_builtins) sample_denied 3 "key" "secret"
                   (start ["1"; "BTCUSDT"])))
     = ["1"; "BTCUSDT"].
Proof.
  destruct (@permission_denied_is_fatal sample_builtins sample_denied "key" "secret" true
              (start ["1"; "BTCUSDT"]) PNone [("serverTime", PInt 1700000000000)]
              "APIError(code=-2015): Invalid API-key, IP, or permissions for action." 3
              eq_refl eq_refl eq_refl) as [_ H].
  destruct (H eq_refl eq_refl) as [Hmain Hexit].
  split; [exact Hexit|]. rewrite Hmain. split; reflexivity.
Defined.


Lemma market_order_scenario_witness :
  calls (snd (loop_body (B := sample_builtins) sample_exchange 1 sample_bot
                (start ["1"; "BTCUSDT"; "buy"; "0.01"; "7"])))
  = [futures_create_order
       [("symbol", PStr "BTCUSDT"); ("side", PStr "BUY"); ("type", PStr "MARKET");
        ("quantity", PFloat 0x1.47ae147ae147bp-7)]].
Proof.
  refine (proj1 (@market_order_scenario sample_builtins sample_exchange sample_bot 0
                   (start ["1"; "BTCUSDT"; "buy"; "0.01"; "7"]) ["7"] "buy"
                   0x1.47ae147ae147bp-7%float eq_refl _ eq_refl)).
  left. reflexivity.
Defined.

Lemma exit_codes_witness :
  exit_status
    (fst (main (B := sample_builtins) sample_exchange 0
            "YOUR_NEW_API_KEY_HERE" "YOUR_NEW_API_SECRET_HERE" (start ["7"])))
  = Some 1%Z
  /\ exit_status
       (fst (main (B := sample_builtins) sample_exchange 1 "key" "secret" (start ["7"])))
     = Some 0%Z.
Proof.
  split.
  - exact (proj1 (proj2 (proj1 (@exit_codes sample_builtins sample_exchange
                                  "YOUR_NEW_API_KEY_HERE" "YOUR_NEW_API_SECRET_HERE" 0
                                  (start ["7"])) eq_refl))).
  - exact (proj1 (proj2 (@exit_codes sample_builtins sample_exchange "key" "secret" 0
                           (start ["7"])))
             _ _ [] eq_refl eq_refl eq_refl).
Defined.

Lemma coercion_failure_reprompts_witness :
  get_user_input (B := sample_builtins) 2 "Enter quantity: " T_float (start ["abc"; "0.5"; "7"])
  = (Ret (PFloat 0.5),
     {| stdin := ["7"];
        trace := [Input "Enter quantity: " (Some "abc");
                  Printed (invalid_input T_float);
                  Input "Enter quantity: " (Some "0.5")] |}).
Proof.
  unfold start.
  rewrite (proj1 (@coercion_failure_reprompts sample_builtins sample_exchange)
             1%nat "Enter quantity: " T_float "abc" ["0.5"; "7"] [] eq_refl).
  reflexivity.
Defined.

(** * Beyond the claims

    Further properties of the same code: how the facade logs and what it
    lets through, how the constructor succeeds and where it stops, and what
    one pass of the menu loop, and the loop as a whole, can do. *)

(** ** The facade *)

Section FacadeExtras.

Context {B : Builtins}.
Variable net : Adapter.
Variable self : BasicBot.

Ltac run_facade' :=
  unfold run_op, place_market_order, place_limit_order, place_stop_limit_order,
    get_order_status, cancel_order, get_account_balance, adapter_call,
    entry_raises, entry_message,
    bind, try_except, do_call, logger_info, logger_error, formatted in *;
  cbv zeta in *.

Ltac run_rest' :=
  unfold emit, ret, raise, orelse, except_, calls in *;
  cbn [stdin trace fst snd] in *;
  rewrite ?calls_of_app in *; cbn [calls_of] in *; rewrite ?app_nil_r in *.

(** X1.  Each of the six operations makes exactly one adapter call, whatever
    the answer -- a failed call is not tried again -- unless its entry line
    cannot be rendered, when it makes none; and it reads nothing from
    standard input. *)
Theorem one_call_per_operation (op : facade_op) (w : world) :
  calls (snd (run_op net self op w))
  = calls w ++ match entry_raises op with
               | None => [adapter_call op]
               | Some _ => []
               end
  /\ stdin (snd (run_op net self op w)) = stdin w.
Proof. exact (run_op_calls net self op w). Qed.

(** X2.  What the adapter raises that is no [Exception] ([KeyboardInterrupt],
    [SystemExit]) is not turned into an error result: the operation raises
    it to its caller.  (An operation whose entry line cannot be rendered has
    raised before the adapter is called.) *)
Theorem base_exceptions_pass_through (op : facade_op) (w : world) (e : exn) :
  respond net (calls w) (adapter_call op) = inr e ->
  is_Exception e = false ->
  fst (run_op net self op w)
  = match entry_raises op with
    | None => Raise e
    | Some e' => Raise e'
    end.
Proof.
  intros Hr He. destruct (entry_raises op) as [e'|] eqn:Hentry.
  - rewrite (run_op_unrenderable net self op w e' Hentry). reflexivity.
  - destruct (run_op_spec net self op w Hentry) as (Ho & _).
    rewrite Ho, Hr. cbn. rewrite He. reflexivity.
Qed.


(** X4.  [get_order_status] and [get_account_balance] return the payload of
    a successful call without logging it: all they add to the trace is their
    entry line and the call.  (When the order id or the symbol cannot be
    rendered for the entry line, [get_order_status] has raised before.) *)
Theorem status_and_balance_responses_are_not_logged
    (symbol order_id p q : pyval) (w : world) :
  respond net (calls w) (futures_get_order [("symbol", symbol); ("orderId", order_id)])
    = inl p ->
  respond net (calls w) futures_account_balance = inl q ->
  get_order_status net self symbol order_id w
  = match entry_raises (OrderStatus symbol order_id) with
    | None =>
        (Ret p,
         {| stdin := stdin w;
            trace := trace w ++
              [Logged INFO [Lit "Getting order status for Order ID "; Fmt order_id;
                            Lit " on "; Fmt symbol];
               Called (futures_get_order [("symbol", symbol); ("orderId", order_id)])
                 (inl p)] |})
    | Some e => (Raise e, w)
    end
  /\ get_account_balance net self w
     = (Ret q,
        {| stdin := stdin w;
           trace := trace w ++
             [Logged INFO [Lit "Getting account balance..."];
              Called futures_account_balance (inl q)] |}).
Proof.
  intros H1 H2. split.
  - destruct (entry_raises (OrderStatus symbol order_id)) as [e|] eqn:Hentry.
    + exact (get_order_status_unrenderable net self symbol order_id w e Hentry).
    + run_facade'. rewrite Hentry. run_rest'. rewrite H1. cbn.
      rewrite <- ?app_assoc. reflexivity.
  - run_facade'. cbn [message_raises frag_raises]. run_rest'. rewrite H2. cbn.
    rewrite <- ?app_assoc. reflexivity.
Qed.

End FacadeExtras.

(** ** The constructor *)

Section ConstructionExtras.

Context {B : Builtins}.
Variable net : Adapter.

(** X5.  When the client constructor, the server-time call (answering with
    a dict whose server time can be rendered) and the account-info call
    succeed, in this order, the constructor returns a bot holding the
    credentials and the testnet flag as given, with the two testnet URLs set
    exactly when the flag is; it has made these three calls and logged three
    INFO lines. *)
Theorem construction_succeeds
    (k s : string) (t : bool) (w : world) (cp ap : pyval) (d : list (string * pyval)) :
  respond net (calls w) (Client_init k s t) = inl cp ->
  respond net (calls w ++ [Client_init k s t]) futures_time = inl (PDict d) ->
  respond net (calls w ++ [Client_init k s t; futures_time]) futures_account = inl ap ->
  str_raises (match assoc "serverTime" d with Some x => x | None => PNone end) = None ->
  BasicBot_init net k s t w =
  (Ret {| api_key := k; api_secret := s; testnet := t;
          client :=
            if t then {| API_URL := Some "https://testnet.binancefuture.com";
                         FUTURES_URL := Some "https://testnet.binancefuture.com/fapi" |}
            else {| API_URL := None; FUTURES_URL := None |} |},
   {| stdin := stdin w;
      trace := trace w ++
        [Called (Client_init k s t) (inl cp);
         Logged INFO [Lit "Bot initialized successfully. Testnet: "; Fmt (PBool t)];
         Called futures_time (inl (PDict d));
         Logged INFO [Lit "Connection verified. Server time: ";
                      Fmt (match assoc "serverTime" d with Some x => x | None => PNone end)];
         Called futures_account (inl ap);
         Logged INFO [Lit "API key has correct futures permissions"]] |}).
Proof.
  intros H1 H2 H3 Hst.
  unfold_init. unfold py_get, ret, raise, calls in *.
  destruct t; cbn [stdin trace fst snd]; rewrite H1; cbn; norm_calls;
    rewrite H2; cbn; rewrite Hst; cbn; norm_calls; rewrite H3; cbn;
    rewrite <- ?app_assoc; reflexivity.
Qed.

(** X6.  The constructor returns a bot only after all three calls have
    answered with a payload, the server time being a dict; the bot holds the
    credentials and the flag it was given. *)
Theorem bot_exists_only_after_checks
    (k s : string) (t : bool) (w : world) (bot : BasicBot) :
  fst (BasicBot_init net k s t w) = Ret bot ->
  api_key bot = k /\ api_secret bot = s /\ testnet bot = t
  /\ exists cp d ap,
       trace (snd (BasicBot_init net k s t w)) = trace w ++
         [Called (Client_init k s t) (inl cp);
          Logged INFO [Lit "Bot initialized successfully. Testnet: "; Fmt (PBool t)];
          Called futures_time (inl (PDict d));
          Logged INFO [Lit "Connection verified. Server time: ";
                       Fmt (match assoc "serverTime" d with Some x => x | None => PNone end)];
          Called futures_account (inl ap);
          Logged INFO [Lit "API key has correct futures permissions"]].
Proof.
  unfold_init. destruct t; cbn [stdin trace fst snd].
  all: repeat match goal with
    | |- context [respond ?n ?h ?c] =>
        let r := fresh "r" in
        generalize (respond n h c); intros r; destruct r as [?|[]]; cbn
    | |- context [py_get ?v ?k] => destruct v; unfold py_get, ret, raise; cbn
    | |- context [str_raises ?v] =>
        let e := fresh "e" in
        let E := fresh "E" in
        let He := fresh "He" in
        destruct (str_raises v) as [e|] eqn:E;
        [pose proof (str_raises_error v e E) as He; destruct e; try discriminate He|];
        clear E; cbn
    | |- context [match ?c with Some _ => _ | None => _ end] =>
        is_var c; destruct c; cbn
    | |- context [Z.eqb ?a ?b] => destruct (Z.eqb a b); cbn
    end; unfold ret, raise; cbn.
  all: intros H; try discriminate H; injection H as <-; cbn.
  all: repeat split.
  all: rewrite <- ?app_assoc; cbn [app]; eexists; eexists; eexists; reflexivity.
Qed.

(** X7.  A server-time answer that is not a dict is fatal: [.get] fails on
    it, the constructor ends in [sys.exit(1)], and the account-info check is
    never made. *)
Theorem malformed_server_time_is_fatal
    (k s : string) (t : bool) (w : world) (cp st : pyval) :
  respond net (calls w) (Client_init k s t) = inl cp ->
  respond net (calls w ++ [Client_init k s t]) futures_time = inl st ->
  (forall d, st <> PDict d) ->
  fst (BasicBot_init net k s t w) = Raise (SystemExit 1)
  /\ calls (snd (BasicBot_init net k s t w)) = calls w ++ [Client_init k s t; futures_time].
Proof.
  intros H1 H2 Hst.
  unfold_init. unfold py_get, ret, raise, calls in *.
  destruct t; cbn [stdin trace fst snd]; rewrite H1; cbn; norm_calls;
    rewrite H2; cbn;
    (destruct st; try (exfalso; eapply Hst; reflexivity); cbn; norm_calls;
     split; reflexivity).
Qed.

End ConstructionExtras.

(** ** The menu loop *)

Section ShellExtras.

Context {B : Builtins}.
Variable net : Adapter.

Lemma after_operation_not_Break (op : facade_op) (r : response) :
  after_operation op r <> Ret Break.
Proof.
  unfold after_operation. destruct (entry_raises op); [discriminate|].
  destruct (facade_outcome op r) as [v|e|]; try discriminate.
  destruct (dumps_raises v); discriminate.
Qed.


(** X14.  Under the same conditions, when the entry line of the operation is
    rendered and [json.dumps] renders the value the operation returns -- the
    payload, or an error result -- what the shell prints last in that pass is
    that value, after "Account Balance: " for choice "6" and after "Result: "
    otherwise. *)
Theorem operation_result_is_printed
    (f : nat) (bot : BasicBot) (w : world) (choice : string) (lines rest : list string)
    (tys : list input_type) (vals : list pyval) (op : facade_op) (v : pyval) :
  stdin w = choice :: lines ->
  fields_of choice = Some tys ->
  read_fields tys lines = Some (vals, rest) ->
  dispatch choice vals = Some op ->
  (List.length lines <= f)%nat ->
  entry_raises op = None ->
  facade_outcome op (respond net (calls w) (adapter_call op)) = Ret v ->
  dumps_raises v = None ->
  exists pre,
    trace (snd (loop_body net f bot w))
    = pre ++ [Printed [Lit (nl ++ result_label choice)%string; Dumps v]].
Proof.
  intros Hin Hty Hread Hdisp Hfuel Hentry Hv Hd.
  pose proof (loop_body_cases net f bot w) as H. cbv zeta in H.
  rewrite Hin in H.
  assert (E7 : String.eqb choice "7" = false).
  { destruct (String.eqb choice "7") eqn:E; [|reflexivity].
    apply String.eqb_eq in E. subst choice. discriminate Hty. }
  rewrite E7, Hty in H.
  destruct H as [(_ & _ & [Hnone|Hlt])|(vals' & op' & Hread' & Hdisp' & _ & _ & _ & Hp)].
  - rewrite Hnone in Hread. discriminate.
  - lia.
  - rewrite Hread in Hread'. injection Hread' as Hvals _. subst vals'.
    rewrite Hdisp in Hdisp'. injection Hdisp' as <-.
    exact (Hp v Hentry Hv Hd).
Qed.

Lemma iteration_cases (f : nat) (bot : BasicBot) (w : world) :
  let r := try_except (loop_body net f bot) loop_handler w in
  match fst r with
  | Ret Break => exists lines, stdin w = "7" :: lines
  | Ret Continue => incl (stdin (snd r)) (stdin w)
  | Raise e => is_Exception e = false
  | OutOfFuel => True
  end.
Proof.
  cbv zeta. pose proof (loop_body_cases net f bot w) as H. cbv zeta in H.
  assert (Hbody : match fst (loop_body net f bot w) with
                  | Ret Break => exists lines, stdin w = "7" :: lines
                  | OutOfFuel => True
                  | _ => incl (stdin (snd (loop_body net f bot w))) (stdin w)
                  end).
  { destruct (stdin w) as [|choice lines] eqn:Hin.
    - rewrite H. cbn. apply incl_refl.
    - destruct (String.eqb choice "7") eqn:E7.
      + apply String.eqb_eq in E7. subst choice. destruct H as (-> & _). eauto.
      + destruct (fields_of choice) as [tys|].
        * destruct H as [(-> & _)|(vals & op & Hread & _ & _ & Ho & _)]; [exact I|].
          pose proof (after_operation_not_Break op
                        (respond net (calls w) (adapter_call op))) as Hnb.
          rewrite <- Ho in Hnb.
          assert (Hincl : incl (stdin (snd (loop_body net f bot w))) (choice :: lines))
            by (apply incl_tl; eapply read_fields_incl; exact Hread).
          destruct (fst (loop_body net f bot w)) as [[|]|e|]; auto. congruence.
        * destruct H as (-> & -> & _). apply incl_tl, incl_refl. }
  unfold try_except, loop_handler, except_.
  destruct (loop_body net f bot w) as [[[|]|e|] w']; cbn [fst snd] in *; auto.
  destruct (is_Exception e) eqn:He; cbn; [exact Hbody|exact He].
Qed.


(** X11.  [main] never ends in an uncaught [Exception]: whatever the
    adapter and the input do, what [main] raises, if anything, is
    [SystemExit] or another [BaseException] that is no [Exception]. *)
Theorem main_raises_no_Exception (f : nat) (k s : string) (w : world) :
  match fst (main net f k s w) with
  | Raise e => is_Exception e = false
  | _ => True
  end.
Proof.
  assert (Hloop : forall f bot w,
             match fst (main_loop net f bot w) with
             | Raise e => is_Exception e = false
             | _ => True
             end).
  { clear. intros f bot. induction f as [|f IH]; intros w; [exact I|].
    cbn [main_loop]. unfold bind at 1.
    pose proof (iteration_cases f bot w) as H. cbv zeta in H.
    destruct (try_except (loop_body net f bot) loop_handler w) as [[[|]|e|] w'];
      cbn [fst snd] in *; cbn; auto; apply IH. }
  destruct (keys_not_set k s) eqn:Hk.
  - unfold main. rewrite Hk. cbn. reflexivity.
  - rewrite (main_runs_constructor net f k s w Hk). unfold bind.
    pose proof (BasicBot_init_raises_no_Exception net k s true w) as Hinit.
    destruct (BasicBot_init net k s true w) as [[bot|e|] w']; cbn in *; auto. apply Hloop.
Qed.


Lemma main_loop_at_end_of_input (bot : BasicBot) (f : nat) (w : world) :
  stdin w = [] ->
  fst (main_loop net f bot w) = OutOfFuel
  /\ calls (snd (main_loop net f bot w)) = calls w
  /\ stdin (snd (main_loop net f bot w)) = [].
Proof.
  revert w. induction f as [|f IH]; intros w Hin.
  - cbn. auto.
  - cbn [main_loop].
    assert (Hb : exists w1,
               try_except (loop_body net f bot) loop_handler w = (Ret Continue, w1)
               /\ stdin w1 = [] /\ calls w1 = calls w).
    { unfold try_except, loop_body. unfold bind at 1. rewrite (print_menu_eof w Hin). cbn.
      eexists. split; [reflexivity|]. split; [reflexivity|].
      unfold calls. cbn. rewrite !calls_of_app. cbn. rewrite !app_nil_r. reflexivity. }
    destruct Hb as (w1 & Hb & Hs1 & Hc1). unfold bind. rewrite Hb.
    destruct (IH w1 Hs1) as (H1 & H2 & H3).
    split; [exact H1|]. split; [rewrite H2; exact Hc1|exact H3].
Qed.

(** X13.  At end of input neither loop ends: the [EOFError] of [input] is
    caught by [except Exception] and the loop goes round, so for every
    amount of fuel the menu loop and [get_user_input] are still running, and
    no adapter call is made. *)
Theorem end_of_input_never_ends_the_loop
    (bot : BasicBot) (w : world) (p : string) (ty : input_type) :
  stdin w = [] ->
  forall f,
    fst (main_loop net f bot w) = OutOfFuel
    /\ calls (snd (main_loop net f bot w)) = calls w
    /\ stdin (snd (main_loop net f bot w)) = []
    /\ fst (get_user_input f p ty w) = OutOfFuel.
Proof.
  intros Hin f. destruct (main_loop_at_end_of_input bot f w Hin) as (H1 & H2 & H3).
  repeat split; try assumption. exact (get_user_input_eof f p ty w Hin).
Qed.

(** X8.  A menu line that is not exactly one of "1" to "7" (no blank is
    stripped) is answered with "Invalid choice": the line is consumed, no
    field is asked for, no adapter call is made, and the loop goes on. *)
Theorem invalid_choice_is_reported
    (f : nat) (bot : BasicBot) (w : world) (choice : string) (lines : list string) :
  stdin w = choice :: lines ->
  ~ In choice ["1"; "2"; "3"; "4"; "5"; "6"; "7"] ->
  loop_body net f bot w =
  (Ret Continue,
   {| stdin := lines;
      trace := trace w ++ menu_text ++
        [Input "Enter your choice (1-7): " (Some choice);
         Printed [Lit "Invalid choice. Please select 1-7"]] |}).
Proof.
  intros Hin Hnot. unfold loop_body. unfold bind at 1.
  rewrite (print_menu_line w choice lines Hin).
  assert (Hne : forall c, In c ["1"; "2"; "3"; "4"; "5"; "6"; "7"] ->
                          String.eqb choice c = false).
  { intros c Hc. apply String.eqb_neq. intros ->. exact (Hnot Hc). }
  rewrite !Hne by (cbn; tauto).
  unfold bind, print, formatted, emit, ret. cbn. rewrite <- app_assoc. reflexivity.
Qed.

End ShellExtras.

(** ** These properties, on sample runs *)

Lemma base_exceptions_pass_through_witness :
  fst (run_op (B := sample_builtins) (always (inr KeyboardInterrupt)) sample_bot
         AccountBalance (start []))
  = Raise KeyboardInterrupt.
Proof.
  exact (@base_exceptions_pass_through sample_builtins (always (inr KeyboardInterrupt))
           sample_bot AccountBalance (start []) KeyboardInterrupt eq_refl eq_refl).
Defined.


Lemma status_and_balance_responses_are_not_logged_witness :
  trace (snd (get_account_balance (B := sample_builtins) sample_exchange sample_bot (start [])))
  = [Logged INFO [Lit "Getting account balance..."];
     Called futures_account_balance
       (inl (PDict [("serverTime", PInt 1700000000000); ("orderId", PInt 1)]))].
Proof.
  rewrite (proj2 (@status_and_balance_responses_are_not_logged sample_builtins
                    sample_exchange sample_bot
                    (PStr "BTCUSDT") (PInt 1)
                    (PDict [("serverTime", PInt 1700000000000); ("orderId", PInt 1)])
                    (PDict [("serverTime", PInt 1700000000000); ("orderId", PInt 1)])
                    (start []) eq_refl eq_refl)).
  reflexivity.
Defined.

Lemma construction_succeeds_witness :
  fst (BasicBot_init (B := sample_builtins) sample_exchange "key" "secret" true (start ["7"]))
  = Ret sample_bot.
Proof.
  rewrite (@construction_succeeds sample_builtins sample_exchange "key" "secret" true
             (start ["7"])
             (PDict [("serverTime", PInt 1700000000000); ("orderId", PInt 1)])
             (PDict [("serverTime", PInt 1700000000000); ("orderId", PInt 1)])
             [("serverTime", PInt 1700000000000); ("orderId", PInt 1)]
             eq_refl eq_refl eq_refl eq_refl).
  reflexivity.
Defined.

Lemma bot_exists_only_after_checks_witness :
  api_key sample_bot = "key" /\ api_secret sample_bot = "secret" /\ testnet sample_bot = true.
Proof.
  destruct (@bot_exists_only_after_checks sample_builtins sample_exchange "key" "secret" true
              (start []) sample_bot eq_refl) as (H1 & H2 & H3 & _).
  exact (conj H1 (conj H2 H3)).
Defined.

Lemma malformed_server_time_is_fatal_witness :
  fst (BasicBot_init (B := sample_builtins) (scripted [inl PNone; inl (PList [])] (inl PNone))
         "key" "secret" true (start []))
  = Raise (SystemExit 1)
  /\ calls (snd (BasicBot_init (B := sample_builtins)
                   (scripted [inl PNone; inl (PList [])] (inl PNone))
                   "key" "secret" true (start [])))
     = [] ++ [Client_init "key" "secret" true; futures_time].
Proof.
  apply (@malformed_server_time_is_fatal sample_builtins
           (scripted [inl PNone; inl (PList [])] (inl PNone))
           "key" "secret" true (start []) PNone (PList []) eq_refl eq_refl).
  intros d Hd. discriminate Hd.
Defined.

Lemma other_refusal_logs_no_permission_message_witness :
  fst (BasicBot_init (B := sample_builtins)
         (scripted [inl PNone; inl (PDict []);
                    inr (BinanceAPIException (Some (-1022)%Z) "APIError(code=-1022)")]
            (inl PNone))
         "key" "secret" true (start []))
  = Raise (SystemExit 1).
Proof.
  rewrite (@other_refusal_logs_no_permission_message sample_builtins
             (scripted [inl PNone; inl (PDict []);
                        inr (BinanceAPIException (Some (-1022)%Z) "APIError(code=-1022)")]
                (inl PNone))
             "key" "secret" true (start []) PNone [] (Some (-1022)%Z) "APIError(code=-1022)"
             eq_refl eq_refl eq_refl).
  - reflexivity.
  - intros H. discriminate H.
Defined.

Lemma invalid_choice_is_reported_witness :
  loop_body (B := sample_builtins) sample_exchange 1 sample_bot (start [" 1"; "7"])
  = (Ret Continue,
     {| stdin := ["7"];
        trace := [] ++ menu_text ++
          [Input "Enter your choice (1-7): " (Some " 1");
           Printed [Lit "Invalid choice. Please select 1-7"]] |}).
Proof.
  apply (@invalid_choice_is_reported sample_builtins sample_exchange 1 sample_bot
           (start [" 1"; "7"]) " 1" ["7"] eq_refl).
  cbn. intros H. repeat (destruct H as [H|H]; [discriminate H|]). exact H.
Defined.


Lemma operation_result_is_printed_witness :
  exists pre,
    trace (snd (loop_body (B := sample_builtins) sample_unreachable 1 sample_bot
                  (start ["6"; "7"])))
    = pre ++ [Printed [Lit (nl ++ "Account Balance: ")%string;
                       Dumps (PDict [("error",
                                      PStr "HTTPSConnectionPool: Max retries exceeded")])]].
Proof.
  exact (@operation_result_is_printed sample_builtins sample_unreachable 1 sample_bot
           (start ["6"; "7"]) "6" ["7"] ["7"] [] [] AccountBalance
           (PDict [("error", PStr "HTTPSConnectionPool: Max retries exceeded")])
           eq_refl eq_refl eq_refl eq_refl (le_n 1) eq_refl eq_refl eq_refl).
Defined.


Lemma end_of_input_never_ends_the_loop_witness :
  fst (main_loop (B := sample_builtins) sample_exchange 5 sample_bot (start [])) = OutOfFuel.
Proof.
  exact (proj1 (@end_of_input_never_ends_the_loop sample_builtins sample_exchange sample_bot
                  (start []) "Enter quantity: " T_float eq_refl 5)).
Defined.
